(** * Web Screenshot API (src/main.py): a shallow embedding and its properties

    The service is a FastAPI application with one module, [main.py].  Its
    handlers are embedded as functions in a state-and-exception monad over a
    [world] that holds the storage directory, the set of live browser
    processes and the trace of calls made to the browsing engine.  What the
    handlers cannot decide themselves (random bits of [uuid4], the outcome
    of each engine call, the rendered bytes, the clock) comes from an
    environment [env] that every theorem quantifies over. *)

From Stdlib Require Import ZArith NArith String Ascii List Lia Bool.
From stdpp Require Import gmap strings list fin_maps pretty.

Open Scope Z_scope.

(** ** Python strings *)

Module Py.

(** [s.startswith(p)] *)
Definition startswith (s p : string) : bool := String.prefix p s.

(** [s.endswith(suffix)]: the last [len(suffix)] characters of [s] are
    [suffix]. *)
Definition endswith (s suffix : string) : bool :=
  let n := String.length s in
  let m := String.length suffix in
  (m <=? n)%nat && String.eqb (String.substring (n - m) m s) suffix.

(** [x in xs] for a list of strings and a value that may be [None]. *)
Definition contains (xs : list string) (x : option string) : bool :=
  match x with
  | Some s => existsb (String.eqb s) xs
  | None => false
  end.

(** [x == s] for a value that may be [None]. *)
Definition eqs (x : option string) (s : string) : bool :=
  match x with
  | Some x' => String.eqb x' s
  | None => false
  end.

End Py.

(** ** [uuid.uuid4().hex]

    [uuid4] takes 16 bytes of [os.urandom], forces the variant bits to
    [10] and the version nibble to [4], and [.hex] prints the 128-bit
    integer as 32 lower-case hexadecimal digits. *)

Module Uuid.

Definition hexdigit (n : N) : ascii :=
  match n with
  | 0 => "0" | 1 => "1" | 2 => "2" | 3 => "3" | 4 => "4" | 5 => "5"
  | 6 => "6" | 7 => "7" | 8 => "8" | 9 => "9" | 10 => "a" | 11 => "b"
  | 12 => "c" | 13 => "d" | 14 => "e" | _ => "f"
  end%N%char.

(** The [k] low nibbles of [v], most significant first, in front of
    [acc]. *)
Fixpoint hex_acc (k : nat) (v : N) (acc : string) : string :=
  match k with
  | O => acc
  | S k' => hex_acc k' (N.shiftr v 4) (String (hexdigit (N.land v 15)) acc)
  end.

(** ['%032x' % v] for [v < 2^128]. *)
Definition hex32 (v : N) : string := hex_acc 32 v "".

(** The integer of a version-4 UUID built from the random bits [r]. *)
Definition uuid4_int (r : N) : N :=
  let i := N.land r (N.ones 128) in
  let i := N.ldiff i (N.shiftl 0xc000 48) in
  let i := N.lor i (N.shiftl 0x8000 48) in
  let i := N.ldiff i (N.shiftl 0xf000 64) in
  N.lor i (N.shiftl 4 76).

Definition uuid4_hex (r : N) : string := hex32 (uuid4_int r).

Definition is_hexdigit (c : ascii) : bool :=
  let n := nat_of_ascii c in
  ((48 <=? n) && (n <=? 57) || (97 <=? n) && (n <=? 102))%nat.

Fixpoint all_hex (s : string) : bool :=
  match s with
  | EmptyString => true
  | String c s' => is_hexdigit c && all_hex s'
  end.

End Uuid.

(** ** Exceptions *)

Inductive exn :=
| HTTPException (status_code : Z) (detail : string)
| TypeError (msg : string)
| PlaywrightError (msg : string)
| OSError (msg : string).

(** [str(e)].  Starlette prints an [HTTPException] as its status code and
    its detail; the other exceptions print their message. *)
Definition str (e : exn) : string :=
  match e with
  | HTTPException c d => pretty c +:+ ": " +:+ d
  | TypeError m | PlaywrightError m | OSError m => m
  end.

(** ** The world a request runs in *)

(** An entry of the storage directory [TEMP_DIR]. *)
Inductive node :=
| File (content : list Byte.byte) (st_ctime : Z)
| Directory.

Definition st_size (content : list Byte.byte) : Z := Z.of_nat (length content).

(** The options dictionary handed to [page.screenshot]. *)
Record screenshot_options := {
  opt_path : string;
  opt_full_page : option bool;
  opt_type : string;
  opt_quality : option (option Z)   (* [None]: the key is not set *)
}.

(** Calls made to the browsing engine, in the order they are made. *)
Inductive event :=
| Launch (headless : bool) (args : list string)
| NewContext (browser : nat) (width height : option Z) (user_agent : string)
| NewPage (browser : nat)
| SetDefaultTimeout (browser : nat) (timeout : option Z)
| Goto (browser : nat) (url : string) (wait_until : string)
| Sleep (seconds : Z)
| Screenshot (browser : nat) (options : screenshot_options)
| Close (browser : nat).

(** The engine calls that can fail. *)
Inductive step :=
| StLaunch | StNewContext | StNewPage | StSetDefaultTimeout | StGoto
| StScreenshot.

Record world := {
  fs : gmap string node;      (* TEMP_DIR: name -> entry *)
  live : gset nat;            (* browser processes that are running *)
  spawned : nat;              (* browsers launched so far *)
  log : list event            (* engine calls so far *)
}.

(** What one request draws from outside the program. *)
Record env := {
  urandom : N;                     (* the bits [uuid4] reads *)
  engine : step -> option string;  (* [Some msg]: that call raises *)
  pixels : list Byte.byte;         (* the image the engine renders *)
  clock : Z                        (* the time a file is written *)
}.

(** ** State and exception monad *)

Inductive res (A : Type) :=
| Ok (a : A)
| Raise (e : exn).
Arguments Ok {A} a.
Arguments Raise {A} e.

Definition M (A : Type) : Type := world -> res A * world.

Definition ret {A} (a : A) : M A := fun w => (Ok a, w).

Definition raise {A} (e : exn) : M A := fun w => (Raise e, w).

Definition bind {A B} (m : M A) (k : A -> M B) : M B :=
  fun w =>
    match m w with
    | (Ok a, w') => k a w'
    | (Raise e, w') => (Raise e, w')
    end.

Notation "'let*' x ':=' m 'in' k" := (bind m (fun x => k))
  (at level 10, x name, m at level 100, k at level 200).
Notation "m '>>' k" := (bind m (fun _ => k))
  (at level 100, k at level 200, right associativity).

(** [try: body finally: fin] *)
Definition try_finally {A} (body : M A) (fin : M unit) : M A :=
  fun w =>
    match body w with
    | (Ok a, w') =>
        match fin w' with
        | (Ok _, w'') => (Ok a, w'')
        | (Raise e, w'') => (Raise e, w'')
        end
    | (Raise e, w') =>
        match fin w' with
        | (Ok _, w'') => (Raise e, w'')
        | (Raise e', w'') => (Raise e', w'')
        end
    end.

(** [try: body except Exception as e: handler(e)] *)
Definition try_except {A} (body : M A) (handler : exn -> M A) : M A :=
  fun w =>
    match body w with
    | (Ok a, w') => (Ok a, w')
    | (Raise e, w') => handler e w'
    end.

(** [if c: raise e] *)
Definition raise_if (c : bool) (e : exn) : M unit :=
  if c then raise e else ret tt.

(** [x < n] where [x] may be [None]: Python raises [TypeError] then. *)
Definition lt (x : option Z) (n : Z) : M bool :=
  match x with
  | Some v => ret (v <? n)%Z
  | None => raise (TypeError "'<' not supported between instances of 'NoneType' and 'int'")
  end.

Definition gt (x : option Z) (n : Z) : M bool :=
  match x with
  | Some v => ret (v >? n)%Z
  | None => raise (TypeError "'>' not supported between instances of 'NoneType' and 'int'")
  end.

(** [a or b], with [b] evaluated only when [a] is false. *)
Definition or_else (a b : M bool) : M bool :=
  let* x := a in if x then ret true else b.

(** [a and b], with [b] evaluated only when [a] is true. *)
Definition and_then (a b : M bool) : M bool :=
  let* x := a in if x then b else ret false.

(** ** The browsing engine (Playwright), as the program drives it

    Every call is recorded in the trace before its outcome is known.  A
    call raises when the environment says so.  [launch] starts a process
    with a fresh handle; the context and the page of a browser are named
    by the handle of that browser. *)

Definition with_log (w : world) (l : list event) : world :=
  {| fs := fs w; live := live w; spawned := spawned w; log := l |}.

Definition emit (e : event) : M unit :=
  fun w => (Ok tt, with_log w (log w ++ [e])).

Definition attempt (ρ : env) (s : step) : M unit :=
  match engine ρ s with
  | Some msg => raise (PlaywrightError msg)
  | None => ret tt
  end.

Definition chromium_launch (ρ : env) (headless : bool) (args : list string)
  : M nat :=
  emit (Launch headless args) >>
  attempt ρ StLaunch >>
  fun w =>
    (Ok (spawned w),
     {| fs := fs w; live := {[spawned w]} ∪ live w;
        spawned := S (spawned w); log := log w |}).

Definition new_context (ρ : env) (browser : nat) (width height : option Z)
    (user_agent : string) : M nat :=
  emit (NewContext browser width height user_agent) >>
  attempt ρ StNewContext >>
  ret browser.

Definition new_page (ρ : env) (context : nat) : M nat :=
  emit (NewPage context) >> attempt ρ StNewPage >> ret context.

Definition set_default_timeout (ρ : env) (page : nat) (timeout : option Z)
  : M unit :=
  emit (SetDefaultTimeout page timeout) >> attempt ρ StSetDefaultTimeout.

Definition goto (ρ : env) (page : nat) (url wait_until : string) : M unit :=
  emit (Goto page url wait_until) >> attempt ρ StGoto.

Definition sleep (seconds : Z) : M unit := emit (Sleep seconds).

(** On success the rendered image is written at [path]. *)
Definition page_screenshot (ρ : env) (page : nat)
    (options : screenshot_options) : M unit :=
  emit (Screenshot page options) >>
  attempt ρ StScreenshot >>
  fun w =>
    (Ok tt,
     {| fs := <[opt_path options := File (pixels ρ) (clock ρ)]> (fs w);
        live := live w; spawned := spawned w; log := log w |}).

(** [browser.close()] ends the process.  The call itself is taken to
    succeed: it is the engine's own release operation. *)
Definition browser_close (browser : nat) : M unit :=
  emit (Close browser) >>
  fun w =>
    (Ok tt,
     {| fs := fs w; live := live w ∖ {[browser]};
        spawned := spawned w; log := log w |}).

(** ** [capture_screenshot] *)

Definition user_agent : string :=
  "Mozilla/5.0 (Windows NT 10.0; Win64; x64) AppleWebKit/537.36 (KHTML, like Gecko) Chrome/91.0.4472.124 Safari/537.36".

Definition capture_screenshot (ρ : env) (url : string)
    (width height : option Z) (full_page : option bool) (format : string)
    (quality timeout : option Z) : M string :=
  let file_extension := if String.eqb format "png" then "png" else "jpg" in
  let filename :=
    "screenshot_" +:+ Uuid.uuid4_hex (urandom ρ) +:+ "." +:+ file_extension in
  let filepath := filename in
  let* browser :=
    chromium_launch ρ true ["--no-sandbox"; "--disable-dev-shm-usage"] in
  try_finally
    (let* context := new_context ρ browser width height user_agent in
     let* page := new_page ρ context in
     set_default_timeout ρ page timeout >>
     goto ρ page url "networkidle" >>
     sleep 2 >>
     let screenshot_options :=
       if String.eqb format "jpeg"
       then {| opt_path := filepath; opt_full_page := full_page;
               opt_type := "jpeg"; opt_quality := Some quality |}
       else {| opt_path := filepath; opt_full_page := full_page;
               opt_type := "png"; opt_quality := None |} in
     page_screenshot ρ page screenshot_options)
    (browser_close browser) >>
  ret filename.

(** ** Handlers *)

(** What a handler returns, or the body of an error response. *)
Record item := { filename : string; size : Z; created : Z }.

Inductive payload :=
| Detail (detail : string)
| ScreenshotResponse (success : bool) (filename message : string)
| ScreenshotJSON (success : bool) (filename message download_url : string)
| FileResponse (path media_type filename : string)
| Deleted (success : bool) (message : string)
| Listing (success : bool) (count : nat) (screenshots : list item).

(** The parsed body of POST /screenshot.  Every field but [url] is
    [Optional], so it may hold [None]. *)
Module ScreenshotRequest.
Record t := {
  url : string;
  width : option Z;
  height : option Z;
  full_page : option bool;
  format : option string;
  quality : option Z;
  timeout : option Z
}.
End ScreenshotRequest.

Definition take_screenshot_post (ρ : env) (request : ScreenshotRequest.t)
  : M payload :=
  try_except
    (raise_if
       (negb (Py.contains ["png"; "jpeg"; "jpg"]
                (ScreenshotRequest.format request)))
       (HTTPException 400 "Format must be 'png' or 'jpeg'") >>
     let format_normalized :=
       if Py.eqs (ScreenshotRequest.format request) "png"
       then "png" else "jpeg" in
     let* bad_quality :=
       and_then (ret (String.eqb format_normalized "jpeg"))
         (or_else (lt (ScreenshotRequest.quality request) 1)
                  (gt (ScreenshotRequest.quality request) 100)) in
     raise_if bad_quality
       (HTTPException 400 "Quality must be between 1 and 100 for JPEG") >>
     let* bad_width :=
       or_else (lt (ScreenshotRequest.width request) 100)
               (gt (ScreenshotRequest.width request) 3840) in
     raise_if bad_width
       (HTTPException 400 "Width must be between 100 and 3840") >>
     let* bad_height :=
       or_else (lt (ScreenshotRequest.height request) 100)
               (gt (ScreenshotRequest.height request) 2160) in
     raise_if bad_height
       (HTTPException 400 "Height must be between 100 and 2160") >>
     let* filename :=
       capture_screenshot ρ
         (ScreenshotRequest.url request)
         (ScreenshotRequest.width request)
         (ScreenshotRequest.height request)
         (ScreenshotRequest.full_page request)
         format_normalized
         (ScreenshotRequest.quality request)
         (ScreenshotRequest.timeout request) in
     ret (ScreenshotResponse true filename "Screenshot captured successfully"))
    (fun e =>
       raise (HTTPException 500 ("Failed to capture screenshot: " +:+ str e))).

Definition take_screenshot_get (ρ : env) (url : string) (width height : Z)
    (full_page : bool) (format : string) (quality timeout : Z) : M payload :=
  try_except
    (raise_if
       (negb (Py.startswith url "http://" || Py.startswith url "https://"))
       (HTTPException 400 "URL must start with http:// or https://") >>
     let format_normalized :=
       if String.eqb format "png" then "png" else "jpeg" in
     let* filename :=
       capture_screenshot ρ url (Some width) (Some height) (Some full_page)
         format_normalized (Some quality) (Some timeout) in
     ret (ScreenshotJSON true filename "Screenshot captured successfully"
            ("/download/" +:+ filename)))
    (fun e =>
       raise (HTTPException 500 ("Failed to capture screenshot: " +:+ str e))).

(** [TEMP_DIR]: [tempfile.gettempdir()] is [/tmp] on Linux when no
    [TMPDIR], [TEMP] or [TMP] is set. *)
Definition TEMP_DIR : string := "/tmp/screenshots".

(** The longest name, in bytes, an entry of a directory can have (Linux's
    usual file systems). *)
Definition NAME_MAX : nat := 255.

(** The two names every directory resolves: itself and its parent. *)
Definition dot_name (filename : string) : bool :=
  String.eqb filename "." || String.eqb filename "..".

(** [str(e)] of the [OSError] a system call raises on
    [TEMP_DIR / filename]. *)
Definition os_error (errno : Z) (strerror filename : string) : exn :=
  OSError ("[Errno " +:+ pretty errno +:+ "] " +:+ strerror +:+ ": '" +:+
           TEMP_DIR +:+ "/" +:+ filename +:+ "'").

(** What the operating system finds at [TEMP_DIR / filename].  The map
    [fs] holds the entries of the directory; [.] and [..] and names over
    [NAME_MAX] are never among them, and a name without an entry is
    resolved as the system does: [.] and [..] are directories, a name
    over [NAME_MAX] is refused, any other name is not there. *)
Inductive stat_result :=
| Entry (n : node)
| NoEntry
| NameTooLong.

Definition os_stat (filename : string) (w : world) : stat_result :=
  match fs w !! filename with
  | Some n => Entry n
  | None =>
      if dot_name filename then Entry Directory
      else if (NAME_MAX <? String.length filename)%nat then NameTooLong
      else NoEntry
  end.

(** [filepath.exists()] for [filepath = TEMP_DIR / filename]: [False] when
    nothing is there, and the [OSError] of a name that is too long is not
    caught. *)
Definition path_exists (filename : string) : M bool :=
  fun w =>
    match os_stat filename w with
    | Entry _ => (Ok true, w)
    | NoEntry => (Ok false, w)
    | NameTooLong => (Raise (os_error 36 "File name too long" filename), w)
    end.

(** [os.remove(filepath)]: removes a regular file, raises on anything
    else. *)
Definition os_remove (filename : string) : M unit :=
  fun w =>
    match os_stat filename w with
    | Entry (File _ _) =>
        (Ok tt,
         {| fs := delete filename (fs w); live := live w;
            spawned := spawned w; log := log w |})
    | Entry Directory => (Raise (os_error 21 "Is a directory" filename), w)
    | NoEntry => (Raise (os_error 2 "No such file or directory" filename), w)
    | NameTooLong => (Raise (os_error 36 "File name too long" filename), w)
    end.

Definition download_screenshot (filename : string) : M payload :=
  let filepath := filename in
  let* present := path_exists filepath in
  raise_if (negb present) (HTTPException 404 "Screenshot not found") >>
  let media_type :=
    if Py.endswith filename ".png" then "image/png" else "image/jpeg" in
  ret (FileResponse filepath media_type filename).

Definition delete_screenshot (filename : string) : M payload :=
  let filepath := filename in
  let* present := path_exists filepath in
  raise_if (negb present) (HTTPException 404 "Screenshot not found") >>
  try_except
    (os_remove filepath >>
     ret (Deleted true ("Screenshot " +:+ filename +:+ " deleted successfully")))
    (fun e =>
       raise (HTTPException 500 ("Failed to delete screenshot: " +:+ str e))).

(** [TEMP_DIR.glob("screenshot_*")]: the entries whose name starts with
    [screenshot_], in the order the directory enumerates them. *)
Definition glob_screenshots : M (list (string * node)) :=
  fun w =>
    (Ok (List.filter (fun e => Py.startswith (fst e) "screenshot_")
           (map_to_list (fs w))), w).

(** The [for] loop of [list_screenshots] over the entries still to visit:
    an entry that is a regular file ([file.is_file()]) is appended with its
    name and what [file.stat()] says of it. *)
Fixpoint collect (files : list (string * node)) (screenshots : list item)
  : list item :=
  match files with
  | [] => screenshots
  | (name, n) :: rest =>
      collect rest
        (match n with
         | File c t =>
             screenshots ++
               [{| filename := name; size := st_size c; created := t |}]
         | Directory => screenshots
         end)
  end.

Definition list_screenshots : M payload :=
  try_except
    (let* files := glob_screenshots in
     let screenshots := collect files [] in
     ret (Listing true (length screenshots) screenshots))
    (fun e =>
       raise (HTTPException 500 ("Failed to list screenshots: " +:+ str e))).

(** ** The framework around the handlers (FastAPI)

    Request parsing happens before a handler runs; a request that does not
    parse is answered with 422 and the handler is not called.  An
    [HTTPException] that leaves a handler becomes a response with its
    status code; any other exception becomes a plain 500. *)

Inductive content :=
| Json (p : payload)
| ValidationErrors
| InternalServerError
| FileBytes (media_type filename : string) (data : list Byte.byte).

Record response := { status : Z; body : content }.

(** Sending a [FileResponse] reads the file at its path; a path that is
    not a regular file makes the framework fail. *)
Definition send_file (path media_type filename : string) (w : world)
  : response :=
  match os_stat path w with
  | Entry (File c _) =>
      {| status := 200; body := FileBytes media_type filename c |}
  | _ => {| status := 500; body := InternalServerError |}
  end.

Definition respond (handler : M payload) : world -> response * world :=
  fun w =>
    match handler w with
    | (Ok (FileResponse p mt fn), w') => (send_file p mt fn w', w')
    | (Ok p, w') => ({| status := 200; body := Json p |}, w')
    | (Raise (HTTPException c d), w') =>
        ({| status := c; body := Json (Detail d) |}, w')
    | (Raise _, w') => ({| status := 500; body := InternalServerError |}, w')
    end.

Definition unprocessable : world -> response * world :=
  fun w => ({| status := 422; body := ValidationErrors |}, w).

(** A field of a JSON body: absent, [null], or a value. *)
Inductive field (A : Type) :=
| Omitted
| Null
| Given (a : A).
Arguments Omitted {A}.
Arguments Null {A}.
Arguments Given {A} a.

(** [x: Optional[T] = default] *)
Definition optional {A} (default : A) (f : field A) : option A :=
  match f with
  | Omitted => Some default
  | Null => None
  | Given a => Some a
  end.

Module Body.
Record t := {
  url : field string;
  width : field Z;
  height : field Z;
  full_page : field bool;
  format : field string;
  quality : field Z;
  timeout : field Z
}.
End Body.

(** The raw query string of GET /screenshot: a parameter is there or not. *)
Module Query.
Record t := {
  url : option string;
  width : option Z;
  height : option Z;
  full_page : option bool;
  format : option string;
  quality : option Z;
  timeout : option Z
}.
End Query.

(** The arguments [take_screenshot_get] is called with. *)
Module Params.
Record t := {
  url : string;
  width : Z;
  height : Z;
  full_page : bool;
  format : string;
  quality : Z;
  timeout : Z
}.
End Params.

(** [Query(default, ge=lo, le=hi)] *)
Definition Query_int (default lo hi : Z) (raw : option Z) : option Z :=
  match raw with
  | None => Some default
  | Some v => if ((lo <=? v) && (v <=? hi))%Z then Some v else None
  end.

(** [Query(default)] *)
Definition Query_bool (default : bool) (raw : option bool) : option bool :=
  match raw with
  | None => Some default
  | Some v => Some v
  end.

(** The anchored alternation [^(png|jpeg|jpg)$]. *)
Definition format_regex (s : string) : bool :=
  existsb (String.eqb s) ["png"; "jpeg"; "jpg"].

(** [Query(default, regex=...)] *)
Definition Query_str (default : string) (regex : string -> bool)
    (raw : option string) : option string :=
  match raw with
  | None => Some default
  | Some v => if regex v then Some v else None
  end.

(** The signature of [take_screenshot_get]. *)
Definition parse_query (q : Query.t) : option Params.t :=
  url ← Query.url q;
  width ← Query_int 1920 100 3840 (Query.width q);
  height ← Query_int 1080 100 2160 (Query.height q);
  full_page ← Query_bool false (Query.full_page q);
  format ← Query_str "png" format_regex (Query.format q);
  quality ← Query_int 80 1 100 (Query.quality q);
  timeout ← Query_int 30000 5000 120000 (Query.timeout q);
  Some {| Params.url := url; Params.width := width; Params.height := height;
          Params.full_page := full_page; Params.format := format;
          Params.quality := quality; Params.timeout := timeout |}.

Section Endpoints.

(** Pydantic's [HttpUrl]: [None] when the string is rejected, otherwise
    what [str(request.url)] gives for it. *)
Variable HttpUrl : string -> option string.

(** The model [ScreenshotRequest]. *)
Definition parse_body (b : Body.t) : option ScreenshotRequest.t :=
  match Body.url b with
  | Given u =>
      url ← HttpUrl u;
      Some {| ScreenshotRequest.url := url;
              ScreenshotRequest.width := optional 1920 (Body.width b);
              ScreenshotRequest.height := optional 1080 (Body.height b);
              ScreenshotRequest.full_page := optional false (Body.full_page b);
              ScreenshotRequest.format := optional "png" (Body.format b);
              ScreenshotRequest.quality := optional 80 (Body.quality b);
              ScreenshotRequest.timeout := optional 30000 (Body.timeout b) |}
  | _ => None
  end.

Definition POST_screenshot (ρ : env) (b : Body.t)
  : world -> response * world :=
  match parse_body b with
  | Some request => respond (take_screenshot_post ρ request)
  | None => unprocessable
  end.

End Endpoints.

Definition GET_screenshot (ρ : env) (q : Query.t)
  : world -> response * world :=
  match parse_query q with
  | Some a =>
      respond
        (take_screenshot_get ρ (Params.url a) (Params.width a)
           (Params.height a) (Params.full_page a) (Params.format a)
           (Params.quality a) (Params.timeout a))
  | None => unprocessable
  end.

Definition GET_download (filename : string) : world -> response * world :=
  respond (download_screenshot filename).

Definition DELETE_screenshot (filename : string)
  : world -> response * world :=
  respond (delete_screenshot filename).

Definition GET_list : world -> response * world :=
  respond list_screenshots.

(** The engine was not called between [w] and [w']. *)
Definition engine_untouched (w w' : world) : Prop :=
  log w' = log w /\ live w' = live w /\ spawned w' = spawned w.

(** Handles are handed out in order, so a live browser has a handle below
    the next one. *)
Definition handles_fresh (w : world) : Prop :=
  forall h, h ∈ live w -> (h < spawned w)%nat.

(** A small world and environment to run the handlers on. *)
Definition empty_world : world :=
  {| fs := ∅; live := ∅; spawned := 0; log := [] |}.

Definition quiet_env : env :=
  {| urandom := 0x0123456789abcdef0123456789abcdef;
     engine := fun _ => None;
     pixels := [Byte.x89; Byte.x50; Byte.x4e; Byte.x47];
     clock := 1700000000 |}.

Definition body_of (u : string) : Body.t :=
  {| Body.url := Given u; Body.width := Omitted; Body.height := Omitted;
     Body.full_page := Omitted; Body.format := Omitted;
     Body.quality := Omitted; Body.timeout := Omitted |}.

Definition query_of (u : string) : Query.t :=
  {| Query.url := Some u; Query.width := None; Query.height := None;
     Query.full_page := None; Query.format := None; Query.quality := None;
     Query.timeout := None |}.

(** A stand-in for [HttpUrl] on concrete runs: http and https only. *)
Definition http_only (u : string) : option string :=
  if Py.startswith u "http://" || Py.startswith u "https://"
  then Some u else None.

(** ** Predicates the statements use *)

(** [x] holds an integer between [lo] and [hi]. *)
Definition in_range (lo hi : Z) (x : option Z) : bool :=
  match x with
  | Some v => ((lo <=? v) && (v <=? hi))%Z
  | None => false
  end.

(** The four checks of the body endpoint, all passed: the format is one
    of the three names, the quality is in range unless the format is png,
    and both dimensions are in range. *)
Definition passes_validation (r : ScreenshotRequest.t) : bool :=
  Py.contains ["png"; "jpeg"; "jpg"] (ScreenshotRequest.format r)
  && (Py.eqs (ScreenshotRequest.format r) "png"
      || in_range 1 100 (ScreenshotRequest.quality r))
  && in_range 100 3840 (ScreenshotRequest.width r)
  && in_range 100 2160 (ScreenshotRequest.height r).

(** The expression both screenshot handlers normalise the format with. *)
Definition normalize_format (format : string) : string :=
  if String.eqb format "png" then "png" else "jpeg".

(** [except Exception as e: raise HTTPException(500, ...)] around [m]. *)
Definition wrapped {A} (m : M A) : M A :=
  try_except m
    (fun e =>
       raise (HTTPException 500 ("Failed to capture screenshot: " +:+ str e))).

(** [fn] has the form [screenshot_<32 hex digits>.<ext>]. *)
Definition named_for (ext fn : string) : Prop :=
  exists hex,
    String.length hex = 32%nat /\ Uuid.all_hex hex = true /\
    fn = "screenshot_" +:+ hex +:+ "." +:+ ext.

(** Bodies and queries to run the endpoints on. *)
Definition gif_body : Body.t :=
  {| Body.url := Given "https://example.com"; Body.width := Omitted;
     Body.height := Omitted; Body.full_page := Omitted;
     Body.format := Given "gif"; Body.quality := Omitted;
     Body.timeout := Omitted |}.

Definition gif_request : ScreenshotRequest.t :=
  {| ScreenshotRequest.url := "https://example.com";
     ScreenshotRequest.width := Some 1920;
     ScreenshotRequest.height := Some 1080;
     ScreenshotRequest.full_page := Some false;
     ScreenshotRequest.format := Some "gif";
     ScreenshotRequest.quality := Some 80;
     ScreenshotRequest.timeout := Some 30000 |}.

Definition jpg_request (timeout : option Z) : ScreenshotRequest.t :=
  {| ScreenshotRequest.url := "https://example.com";
     ScreenshotRequest.width := Some 800;
     ScreenshotRequest.height := Some 600;
     ScreenshotRequest.full_page := Some true;
     ScreenshotRequest.format := Some "jpg";
     ScreenshotRequest.quality := Some 90;
     ScreenshotRequest.timeout := timeout |}.

Definition ftp_params : Params.t :=
  {| Params.url := "ftp://example.com"; Params.width := 1920;
     Params.height := 1080; Params.full_page := false;
     Params.format := "png"; Params.quality := 80;
     Params.timeout := 30000 |}.

(** An engine whose navigation times out. *)
Definition timeout_env : env :=
  {| urandom := 7;
     engine := fun s =>
       match s with
       | StGoto => Some "Timeout 30000ms exceeded."
       | _ => None
       end;
     pixels := [];
     clock := 1700000000 |}.

(** The answer to a request for a file that is not there. *)
Definition not_found : response :=
  {| status := 404; body := Json (Detail "Screenshot not found") |}.

(** The entry [list_screenshots] appends for a directory entry, if any. *)
Definition item_of (e : string * node) : option item :=
  match e.2 with
  | File c t => Some {| filename := e.1; size := st_size c; created := t |}
  | Directory => None
  end.

(** A storage directory with two screenshots, a sub-directory that carries
    the prefix, and a file that does not. *)
Definition stored_world : world :=
  {| fs := <["screenshot_a.png" := File [Byte.x89; Byte.x50] 11]>
           (<["screenshot_b.jpg" := File [Byte.xff; Byte.xd8; Byte.xff] 12]>
            (<["screenshot_old" := Directory]>
             (<["notes.txt" := File [] 13]> ∅)));
     live := ∅; spawned := 0; log := [] |}.

(** The body [b] with its timeout set to [t]. *)
Definition body_with_timeout (b : Body.t) (t : Z) : Body.t :=
  {| Body.url := Body.url b; Body.width := Body.width b;
     Body.height := Body.height b; Body.full_page := Body.full_page b;
     Body.format := Body.format b; Body.quality := Body.quality b;
     Body.timeout := Given t |}.

(** [x] is given and lies outside [lo, hi]. *)
Definition out_of_range (lo hi : Z) (x : option Z) : Prop :=
  exists v, x = Some v /\ (v < lo \/ hi < v).

(** [x] is left out or lies in [lo, hi]. *)
Definition absent_or_within (lo hi : Z) (x : option Z) : Prop :=
  match x with
  | Some v => lo <= v <= hi
  | None => True
  end.

(** A query that sets only the timeout, next to the url. *)
Definition query_with_timeout (u : string) (t : Z) : Query.t :=
  {| Query.url := Some u; Query.width := None; Query.height := None;
     Query.full_page := None; Query.format := None; Query.quality := None;
     Query.timeout := Some t |}.

(** The value of a parameter: the one given, or the default. *)
Definition default_to {A} (default : A) (x : option A) : A :=
  match x with
  | Some v => v
  | None => default
  end.

(** The name [capture_screenshot] builds in its first two lines. *)
Definition generated_filename (ρ : env) (format : string) : string :=
  "screenshot_" +:+ Uuid.uuid4_hex (urandom ρ) +:+ "." +:+
  (if String.eqb format "png" then "png" else "jpg").

(** ** Definitions for the properties of the whole service *)

(** The message of the first engine call that fails, in the order
    [capture_screenshot] makes the calls. *)
Definition first_failure (ρ : env) : option string :=
  match engine ρ StLaunch with
  | Some m => Some m
  | None =>
  match engine ρ StNewContext with
  | Some m => Some m
  | None =>
  match engine ρ StNewPage with
  | Some m => Some m
  | None =>
  match engine ρ StSetDefaultTimeout with
  | Some m => Some m
  | None =>
  match engine ρ StGoto with
  | Some m => Some m
  | None => engine ρ StScreenshot
  end end end end end.

(** The browser an engine call is made on, if it is made on one. *)
Definition browser_of (e : event) : option nat :=
  match e with
  | Launch _ _ | Sleep _ => None
  | NewContext b _ _ _ | NewPage b | SetDefaultTimeout b _ | Goto b _ _
  | Screenshot b _ | Close b => Some b
  end.

(** The calls [capture_screenshot] makes once the page has loaded. *)
Definition after_navigation (e : event) : bool :=
  match e with
  | Sleep _ | Screenshot _ _ => true
  | _ => false
  end.

(** The number of entries GET /list reports for a storage directory. *)
Definition listed (w : world) : list item :=
  omap item_of
    (List.filter (fun e => Py.startswith e.1 "screenshot_")
       (map_to_list (fs w))).

(** An engine whose screenshot call fails. *)
Definition disk_full_env : env :=
  {| urandom := 11;
     engine := fun s =>
       match s with
       | StScreenshot => Some "ENOSPC: no space left on device"
       | _ => None
       end;
     pixels := [];
     clock := 1700000000 |}.

(** What Python says when [None] is compared with an integer. *)
Definition none_lt_int : string :=
  "'<' not supported between instances of 'NoneType' and 'int'".

(** A query with every number on one of its bounds. *)
Definition edge_query : Query.t :=
  {| Query.url := Some "https://example.com"; Query.width := Some 100;
     Query.height := Some 2160; Query.full_page := None;
     Query.format := Some "jpg"; Query.quality := Some 1;
     Query.timeout := Some 120000 |}.

(** A second engine that never fails, with other random bits. *)
Definition other_env : env :=
  {| urandom := 0xfedcba9876543210fedcba9876543210;
     engine := fun _ => None;
     pixels := [Byte.xff; Byte.xd8];
     clock := 1700000005 |}.

(** A name that can be the name of an entry of a directory: not [.], not
    [..], and of at most [NAME_MAX] bytes. *)
Definition ordinary_name (filename : string) : bool :=
  negb (dot_name filename) && (String.length filename <=? NAME_MAX)%nat.

(** The normalisation as the specification words it: "jpg" and "jpeg"
    both map to "jpeg", anything else maps to "png". *)
Definition spec_normalize (format : string) : string :=
  if String.eqb format "jpg" || String.eqb format "jpeg"
  then "jpeg" else "png".

(** A name of 300 bytes. *)
Definition long_name : string :=
  String.concat "" (List.repeat "0123456789" 30).

(** * Properties *)

Create HintDb monad_ops.
#[global] Hint Unfold bind ret raise raise_if try_except try_finally
  and_then or_else lt gt emit attempt wrapped : monad_ops.

Ltac run := autounfold with monad_ops; simpl.

(** Unfold the sequencing of a handler and keep its calls folded. *)
Ltac seq :=
  cbv beta iota delta [bind ret raise raise_if try_except and_then wrapped].

Arguments capture_screenshot : simpl never.

(** ** Range checks *)

Lemma range_check (lo hi : Z) (x : option Z) (w : world) :
  or_else (lt x lo) (gt x hi) w =
  match x with
  | Some v => (Ok (negb (in_range lo hi x)), w)
  | None =>
      (Raise (TypeError "'<' not supported between instances of 'NoneType' and 'int'"), w)
  end.
Proof.
  destruct x as [v|]; run; [|reflexivity].
  destruct (Z.ltb_spec v lo), (Z.leb_spec lo v); try lia; simpl;
    [reflexivity|].
  rewrite Z.gtb_ltb.
  destruct (Z.ltb_spec hi v), (Z.leb_spec v hi); try lia; reflexivity.
Qed.

(** ** The body endpoint rejects before it captures *)

(** A request that fails one of the four checks leaves the handler as an
    [HTTPException] with status 500, and the world is as it was. *)
Lemma take_screenshot_post_rejects (ρ : env) (r : ScreenshotRequest.t)
    (w : world) :
  passes_validation r = false ->
  exists d, take_screenshot_post ρ r w = (Raise (HTTPException 500 d), w).
Proof.
  destruct r as [u wd ht fp f q t]. unfold passes_validation. simpl.
  intros H. unfold take_screenshot_post. simpl. seq.
  destruct (Py.contains _ f) eqn:Hf; simpl in *; [|eauto].
  assert (Hq : String.eqb (if Py.eqs f "png" then "png" else "jpeg") "jpeg"
               = negb (Py.eqs f "png"))
    by (destruct (Py.eqs f "png"); reflexivity).
  rewrite Hq. clear Hq.
  destruct (Py.eqs f "png") eqn:Hp; simpl in *.
  - rewrite range_check.
    destruct wd as [wv|]; [|eauto].
    destruct (in_range 100 3840 (Some wv)) eqn:Hw; simpl in *; [|eauto].
    rewrite range_check.
    destruct ht as [hv|]; [|eauto].
    destruct (in_range 100 2160 (Some hv)) eqn:Hh; simpl in *; [|eauto].
    discriminate.
  - rewrite range_check.
    destruct q as [qv|]; [|eauto].
    destruct (in_range 1 100 (Some qv)) eqn:Hqr; simpl in *; [|eauto].
    rewrite range_check.
    destruct wd as [wv|]; [|eauto].
    destruct (in_range 100 3840 (Some wv)) eqn:Hw; simpl in *; [|eauto].
    rewrite range_check.
    destruct ht as [hv|]; [|eauto].
    destruct (in_range 100 2160 (Some hv)) eqn:Hh; simpl in *; [|eauto].
    discriminate.
Qed.

(** A request that passes the four checks reaches [capture_screenshot],
    with the normalised format and its own timeout. *)
Lemma take_screenshot_post_accepts (ρ : env) (r : ScreenshotRequest.t)
    (w : world) :
  passes_validation r = true ->
  exists f,
    ScreenshotRequest.format r = Some f /\
    take_screenshot_post ρ r w =
    wrapped
      (let* filename :=
         capture_screenshot ρ
           (ScreenshotRequest.url r) (ScreenshotRequest.width r)
           (ScreenshotRequest.height r) (ScreenshotRequest.full_page r)
           (normalize_format f)
           (ScreenshotRequest.quality r) (ScreenshotRequest.timeout r) in
       ret (ScreenshotResponse true filename "Screenshot captured successfully"))
      w.
Proof.
  destruct r as [u wd ht fp f q t]. unfold passes_validation. simpl.
  intros H.
  apply andb_prop in H as [H Hh]. apply andb_prop in H as [H Hw].
  apply andb_prop in H as [Hf Hq].
  destruct f as [s|]; [|discriminate Hf].
  exists s. split; [reflexivity|].
  unfold take_screenshot_post, normalize_format.
  cbn [ScreenshotRequest.format ScreenshotRequest.quality
       ScreenshotRequest.width ScreenshotRequest.height
       ScreenshotRequest.url ScreenshotRequest.full_page
       ScreenshotRequest.timeout Py.eqs] in *.
  seq. rewrite Hf. cbn [negb].
  destruct (String.eqb s "png") eqn:Hp; simpl in Hq; simpl.
  - rewrite range_check. destruct wd; [|discriminate]. rewrite Hw. simpl.
    rewrite range_check. destruct ht; [|discriminate]. rewrite Hh. simpl.
    reflexivity.
  - rewrite range_check. destruct q; [|discriminate]. rewrite Hq. simpl.
    rewrite range_check. destruct wd; [|discriminate]. rewrite Hw. simpl.
    rewrite range_check. destruct ht; [|discriminate]. rewrite Hh. simpl.
    reflexivity.
Qed.

(** ** The query endpoint *)

Lemma take_screenshot_get_rejects (ρ : env) (url : string) (width height : Z)
    (full_page : bool) (format : string) (quality timeout : Z) (w : world) :
  Py.startswith url "http://" || Py.startswith url "https://" = false ->
  take_screenshot_get ρ url width height full_page format quality timeout w =
  (Raise
     (HTTPException 500
        ("Failed to capture screenshot: " +:+
         str (HTTPException 400 "URL must start with http:// or https://"))),
   w).
Proof.
  intros H. unfold take_screenshot_get. seq. rewrite H. reflexivity.
Qed.

Lemma take_screenshot_get_accepts (ρ : env) (url : string) (width height : Z)
    (full_page : bool) (format : string) (quality timeout : Z) (w : world) :
  Py.startswith url "http://" || Py.startswith url "https://" = true ->
  take_screenshot_get ρ url width height full_page format quality timeout w =
  wrapped
    (let* filename :=
       capture_screenshot ρ url (Some width) (Some height) (Some full_page)
         (normalize_format format) (Some quality) (Some timeout) in
     ret (ScreenshotJSON true filename "Screenshot captured successfully"
            ("/download/" +:+ filename)))
    w.
Proof.
  intros H. unfold take_screenshot_get, normalize_format. seq. rewrite H.
  reflexivity.
Qed.

(** ** Strings *)

Lemma append_cons (x : ascii) (a b : string) :
  String x a +:+ b = String x (a +:+ b).
Proof. reflexivity. Qed.

Lemma substring_all (s : string) :
  String.substring 0 (String.length s) s = s.
Proof. induction s as [|c s IH]; simpl; [reflexivity | now rewrite IH]. Qed.

Lemma substring_skip (a s : string) :
  String.substring (String.length a) (String.length s) (a +:+ s) = s.
Proof.
  induction a as [|c a IH]; [apply substring_all|].
  rewrite append_cons. simpl. exact IH.
Qed.

Lemma length_append (a s : string) :
  String.length (a +:+ s) = (String.length a + String.length s)%nat.
Proof.
  induction a as [|c a IH]; [reflexivity|].
  rewrite append_cons. simpl. now rewrite IH.
Qed.

Lemma endswith_append (a s : string) : Py.endswith (a +:+ s) s = true.
Proof.
  unfold Py.endswith. rewrite length_append.
  replace (String.length a + String.length s - String.length s)%nat
    with (String.length a) by lia.
  rewrite substring_skip, String.eqb_refl, andb_true_r.
  apply Nat.leb_le. lia.
Qed.

Lemma append_assoc (a b c : string) : (a +:+ b) +:+ c = a +:+ b +:+ c.
Proof.
  induction a as [|x a IH]; [reflexivity|].
  now rewrite !append_cons, IH.
Qed.

(** Two strings of the same length with different endings: one cannot
    end with the other's ending. *)
Lemma endswith_append_other (a s s' : string) :
  String.length s = String.length s' -> s <> s' ->
  Py.endswith (a +:+ s) s' = false.
Proof.
  intros Hlen Hne. unfold Py.endswith. rewrite length_append, <- Hlen.
  replace (String.length a + String.length s - String.length s)%nat
    with (String.length a) by lia.
  rewrite substring_skip.
  destruct (String.eqb_spec s s') as [->|_]; [contradiction|].
  apply andb_false_r.
Qed.

(** ** [uuid4().hex] is 32 hexadecimal digits *)

Lemma hexdigit_is_hex (n : N) : Uuid.is_hexdigit (Uuid.hexdigit n) = true.
Proof.
  destruct n as [|p]; [reflexivity|].
  do 4 (destruct p as [p|p|]; try reflexivity).
Qed.

Lemma hex_acc_length (k : nat) (v : N) (acc : string) :
  String.length (Uuid.hex_acc k v acc) = (k + String.length acc)%nat.
Proof.
  revert v acc. induction k as [|k IH]; intros v acc; simpl; [reflexivity|].
  rewrite IH. simpl. lia.
Qed.

Lemma hex_acc_all_hex (k : nat) (v : N) (acc : string) :
  Uuid.all_hex acc = true -> Uuid.all_hex (Uuid.hex_acc k v acc) = true.
Proof.
  revert v acc. induction k as [|k IH]; intros v acc Hacc; simpl; [exact Hacc|].
  apply IH. simpl. now rewrite hexdigit_is_hex, Hacc.
Qed.

Lemma uuid4_hex_length (r : N) : String.length (Uuid.uuid4_hex r) = 32%nat.
Proof. unfold Uuid.uuid4_hex, Uuid.hex32. now rewrite hex_acc_length. Qed.

Lemma uuid4_hex_all_hex (r : N) : Uuid.all_hex (Uuid.uuid4_hex r) = true.
Proof. unfold Uuid.uuid4_hex, Uuid.hex32. now apply hex_acc_all_hex. Qed.

(** ** [capture_screenshot] *)

Ltac capture_steps ρ :=
  unfold capture_screenshot, chromium_launch, new_context, new_page,
    set_default_timeout, goto, sleep, page_screenshot, browser_close;
  run;
  repeat match goal with
    | |- context [engine ρ ?s] =>
        let E := fresh "E" in destruct (engine ρ s) eqn:E; simpl
    end.

Section Capture.

Variables (ρ : env) (url : string) (width height : option Z)
  (full_page : option bool) (format : string) (quality timeout : option Z).

Local Abbreviation capture :=
  (capture_screenshot ρ url width height full_page format quality timeout).

(** A capture that returns, returns the name it built. *)
Lemma capture_returns_filename (w w' : world) (fn : string) :
  capture w = (Ok fn, w') -> fn = generated_filename ρ format.
Proof.
  unfold generated_filename. capture_steps ρ; intros H; now inversion H.
Qed.

(** When no engine call fails, the capture returns and the image is in
    storage under the name returned. *)
Lemma capture_succeeds (w : world) :
  (forall s, engine ρ s = None) ->
  exists w',
    capture w = (Ok (generated_filename ρ format), w') /\
    fs w' = <[generated_filename ρ format := File (pixels ρ) (clock ρ)]> (fs w).
Proof.
  intros Hok. unfold generated_filename.
  unfold capture_screenshot, chromium_launch, new_context, new_page,
    set_default_timeout, goto, sleep, page_screenshot, browser_close.
  run. rewrite !Hok. simpl.
  eexists. split; [reflexivity|]. simpl.
  destruct (String.eqb format "jpeg"); reflexivity.
Qed.

(** A capture that raises has seen an engine call fail. *)
Lemma capture_raises (w w' : world) (e : exn) :
  capture w = (Raise e, w') ->
  exists s msg, engine ρ s = Some msg /\ e = PlaywrightError msg.
Proof.
  capture_steps ρ; intros H; inversion H; subst; eauto.
Qed.

(** When the launch fails there is no browser: one call is logged and
    nothing else changes. *)
Lemma capture_launch_fails (w : world) (msg : string) :
  engine ρ StLaunch = Some msg ->
  capture w =
  (Raise (PlaywrightError msg),
   with_log w
     (log w ++ [Launch true ["--no-sandbox"; "--disable-dev-shm-usage"]])).
Proof.
  intros H. unfold capture_screenshot, chromium_launch. run.
  rewrite H. reflexivity.
Qed.

(** When the launch succeeds the browser it started is closed, as the
    last engine call, whatever happened in between. *)
Lemma capture_closes (w : world) :
  engine ρ StLaunch = None ->
  let w' := snd (capture w) in
  live w' = ({[spawned w]} ∪ live w) ∖ {[spawned w]} /\
  spawned w' = S (spawned w) /\
  exists mid,
    log w' =
    log w ++ [Launch true ["--no-sandbox"; "--disable-dev-shm-usage"]]
          ++ mid ++ [Close (spawned w)].
Proof.
  intros H.
  unfold capture_screenshot, chromium_launch, new_context, new_page,
    set_default_timeout, goto, sleep, page_screenshot, browser_close.
  run. rewrite H. simpl.
  repeat match goal with
    | |- context [engine ρ ?s] =>
        let E := fresh "E" in destruct (engine ρ s) eqn:E; simpl
    end;
    (split; [reflexivity|]; split; [reflexivity|]);
    rewrite <- ?app_assoc; simpl;
    match goal with
    | |- exists mid, (_ ++ _ :: ?tl)%list = _ => exists (removelast tl)
    end;
    reflexivity.
Qed.

(** The timeout given to the capture is the one set on the page. *)
Lemma capture_sets_timeout (w : world) :
  engine ρ StLaunch = None -> engine ρ StNewContext = None ->
  engine ρ StNewPage = None ->
  SetDefaultTimeout (spawned w) timeout ∈ log (snd (capture w)).
Proof.
  intros H1 H2 H3.
  unfold capture_screenshot, chromium_launch, new_context, new_page,
    set_default_timeout, goto, sleep, page_screenshot, browser_close.
  run. rewrite H1, H2, H3. simpl.
  repeat match goal with
    | |- context [engine ρ ?s] =>
        let E := fresh "E" in destruct (engine ρ s) eqn:E; simpl
    end;
    rewrite !elem_of_app, !list_elem_of_singleton; auto 10.
Qed.

(** Every capture starts with a launch. *)
Lemma capture_launches (w : world) :
  exists rest,
    log (snd (capture w)) =
    log w ++ Launch true ["--no-sandbox"; "--disable-dev-shm-usage"] :: rest.
Proof.
  capture_steps ρ; rewrite <- ?app_assoc; eexists; simpl; reflexivity.
Qed.

End Capture.

(** ** What leaves the handlers as a response *)

Lemma respond_raise (m : M payload) (w w' : world) (c : Z) (d : string) :
  m w = (Raise (HTTPException c d), w') ->
  respond m w = ({| status := c; body := Json (Detail d) |}, w').
Proof. intros H. unfold respond. now rewrite H. Qed.

Section Body_endpoint.

Variable HttpUrl : string -> option string.

(** C1 (as the code behaves): a POST /screenshot whose body fails
    validation (format not one of png, jpeg, jpg; quality outside
    [1,100] when the format resolves to jpeg; width outside [100,3840];
    height outside [100,2160]) is answered with status 500, not 400,
    because the 400 raised by the check is caught by the handler's own
    [except Exception] and wrapped; the engine is not invoked and the
    world is unchanged. *)
Theorem C1_post_validation_failure_is_500 (ρ : env) (b : Body.t)
    (r : ScreenshotRequest.t) (w : world) :
  parse_body HttpUrl b = Some r ->
  passes_validation r = false ->
  status (fst (POST_screenshot HttpUrl ρ b w)) = 500 /\
  snd (POST_screenshot HttpUrl ρ b w) = w.
Proof.
  intros Hb Hr. unfold POST_screenshot. rewrite Hb.
  destruct (take_screenshot_post_rejects ρ r w Hr) as [d Hd].
  rewrite (respond_raise _ _ _ _ _ Hd). split; reflexivity.
Qed.

End Body_endpoint.

Lemma C1_post_validation_failure_is_500_witness :
  status (fst (POST_screenshot http_only quiet_env gif_body empty_world)) = 500
  /\ snd (POST_screenshot http_only quiet_env gif_body empty_world)
     = empty_world.
Proof.
  apply (C1_post_validation_failure_is_500 http_only quiet_env gif_body
           gif_request empty_world); reflexivity.
Defined.

(** C2 (as the code behaves): a GET /screenshot whose url does not begin
    with http:// or https:// is answered with status 500, not 400, because
    the 400 raised by the check is caught by the handler's own
    [except Exception] and wrapped; the engine is not invoked and no file
    is created: the world is unchanged. *)
Theorem C2_get_bad_scheme_is_500 (ρ : env) (q : Query.t) (a : Params.t)
    (w : world) :
  parse_query q = Some a ->
  Py.startswith (Params.url a) "http://"
  || Py.startswith (Params.url a) "https://" = false ->
  status (fst (GET_screenshot ρ q w)) = 500 /\
  snd (GET_screenshot ρ q w) = w.
Proof.
  intros Hq Hu. unfold GET_screenshot. rewrite Hq.
  rewrite (respond_raise _ _ _ _ _
             (take_screenshot_get_rejects ρ _ _ _ _ _ _ _ w Hu)).
  split; reflexivity.
Qed.

Lemma C2_get_bad_scheme_is_500_witness :
  status (fst (GET_screenshot quiet_env (query_of "ftp://example.com")
                 empty_world)) = 500
  /\ snd (GET_screenshot quiet_env (query_of "ftp://example.com") empty_world)
     = empty_world.
Proof.
  apply (C2_get_bad_scheme_is_500 quiet_env (query_of "ftp://example.com")
           ftp_params empty_world); reflexivity.
Defined.

(** ** Format normalisation *)

Lemma normalize_format_as_specified (f : string) :
  Py.contains ["png"; "jpeg"; "jpg"] (Some f) = true ->
  normalize_format f = spec_normalize f.
Proof.
  unfold normalize_format, spec_normalize. simpl.
  destruct (String.eqb_spec f "png") as [->|_]; [reflexivity|].
  destruct (String.eqb_spec f "jpeg") as [->|_]; [reflexivity|].
  destruct (String.eqb_spec f "jpg") as [->|_]; [reflexivity|].
  discriminate.
Qed.

Lemma parse_query_format (q : Query.t) (a : Params.t) :
  parse_query q = Some a -> format_regex (Params.format a) = true.
Proof.
  unfold parse_query. intros H.
  destruct (Query.url q); simpl in H; [|discriminate].
  destruct (Query_int 1920 _ _ _); simpl in H; [|discriminate].
  destruct (Query_int 1080 _ _ _); simpl in H; [|discriminate].
  destruct (Query_bool _ _); simpl in H; [|discriminate].
  destruct (Query_str _ _ _) as [f|] eqn:Hf; simpl in H; [|discriminate].
  destruct (Query_int 80 _ _ _); simpl in H; [|discriminate].
  destruct (Query_int 30000 _ _ _); simpl in H; [|discriminate].
  injection H as <-. simpl.
  unfold Query_str in Hf. destruct (Query.format q) as [g|].
  - destruct (format_regex g) eqn:Hg; [|discriminate].
    injection Hf as <-. exact Hg.
  - injection Hf as <-. reflexivity.
Qed.

(** C3: on every format that reaches it, the normalisation applied before
    capture is the one specified: "jpg" and "jpeg" both map to the single
    internal value "jpeg" and every other format maps to "png".  The
    formats that reach it are the ones the membership check of the body
    handler and the regex of the query parameter admit; any other format
    is refused before the normalisation.  Both entry paths, the
    structured-body POST handler and the query-parameter GET handler,
    call the capture with that normalisation of the format they were
    given. *)
Theorem C3_normalization_on_both_paths :
  normalize_format "jpg" = "jpeg" /\
  normalize_format "jpeg" = "jpeg" /\
  (forall f,
     Py.contains ["png"; "jpeg"; "jpg"] (Some f) = true ->
     normalize_format f = spec_normalize f) /\
  (forall f, format_regex f = true -> normalize_format f = spec_normalize f) /\
  (forall ρ r w,
     passes_validation r = true ->
     exists f,
       ScreenshotRequest.format r = Some f /\
       take_screenshot_post ρ r w =
       wrapped
         (let* filename :=
            capture_screenshot ρ
              (ScreenshotRequest.url r) (ScreenshotRequest.width r)
              (ScreenshotRequest.height r) (ScreenshotRequest.full_page r)
              (spec_normalize f)
              (ScreenshotRequest.quality r) (ScreenshotRequest.timeout r) in
          ret (ScreenshotResponse true filename
                 "Screenshot captured successfully"))
         w) /\
  (forall ρ q a w,
     parse_query q = Some a ->
     Py.startswith (Params.url a) "http://"
     || Py.startswith (Params.url a) "https://" = true ->
     take_screenshot_get ρ (Params.url a) (Params.width a) (Params.height a)
       (Params.full_page a) (Params.format a) (Params.quality a)
       (Params.timeout a) w
     = wrapped
         (let* filename :=
            capture_screenshot ρ (Params.url a) (Some (Params.width a))
              (Some (Params.height a)) (Some (Params.full_page a))
              (spec_normalize (Params.format a)) (Some (Params.quality a))
              (Some (Params.timeout a)) in
          ret (ScreenshotJSON true filename "Screenshot captured successfully"
                 ("/download/" +:+ filename)))
         w) /\
  (forall ρ r w,
     Py.contains ["png"; "jpeg"; "jpg"] (ScreenshotRequest.format r) = false ->
     exists d, take_screenshot_post ρ r w = (Raise (HTTPException 500 d), w)) /\
  (forall q f,
     Query.format q = Some f -> format_regex f = false -> parse_query q = None).
Proof.
  split; [reflexivity|]. split; [reflexivity|].
  split; [exact normalize_format_as_specified|].
  split; [exact normalize_format_as_specified|].
  split; [|split; [|split]].
  - intros ρ r w Hv.
    destruct (take_screenshot_post_accepts ρ r w Hv) as (f & Hf & Hrun).
    exists f. split; [exact Hf|]. rewrite Hrun.
    rewrite normalize_format_as_specified; [reflexivity|].
    unfold passes_validation in Hv. rewrite Hf in Hv.
    apply andb_prop in Hv as [Hv _]. apply andb_prop in Hv as [Hv _].
    apply andb_prop in Hv as [Hv _]. exact Hv.
  - intros ρ q a w Hq Hu.
    rewrite (take_screenshot_get_accepts _ _ _ _ _ _ _ _ _ Hu).
    rewrite (normalize_format_as_specified (Params.format a));
      [reflexivity|].
    exact (parse_query_format q a Hq).
  - intros ρ r w Hf. apply take_screenshot_post_rejects.
    unfold passes_validation. now rewrite Hf.
  - intros q f Hq Hf. unfold parse_query, Query_bool, Query_str.
    rewrite Hq, Hf.
    destruct (Query.url q); simpl; [|reflexivity].
    destruct (Query_int 1920 _ _ _); simpl; [|reflexivity].
    destruct (Query_int 1080 _ _ _); simpl; [|reflexivity].
    destruct (Query.full_page q); reflexivity.
Qed.

Lemma C3_normalization_on_both_paths_witness :
  normalize_format "jpg" = spec_normalize "jpg" /\
  (exists f,
     ScreenshotRequest.format (jpg_request (Some 30000)) = Some f /\
     take_screenshot_post quiet_env (jpg_request (Some 30000)) empty_world =
     wrapped
       (let* filename :=
          capture_screenshot quiet_env "https://example.com" (Some 800)
            (Some 600) (Some true) (spec_normalize f) (Some 90)
            (Some 30000) in
        ret (ScreenshotResponse true filename
               "Screenshot captured successfully"))
       empty_world) /\
  (exists d,
     take_screenshot_post quiet_env gif_request empty_world =
     (Raise (HTTPException 500 d), empty_world)).
Proof.
  destruct C3_normalization_on_both_paths
    as (_ & _ & Hin & _ & Hpost & _ & Hrej & _).
  split; [apply Hin; reflexivity|].
  split; [apply (Hpost quiet_env (jpg_request (Some 30000)) empty_world);
          reflexivity|].
  apply Hrej. reflexivity.
Defined.

(** ** File names *)

Lemma named_for_endswith (ext fn : string) :
  named_for ext fn -> Py.endswith fn ("." +:+ ext) = true.
Proof.
  intros (hex & _ & _ & ->). rewrite <- append_assoc. apply endswith_append.
Qed.

(** A name made for one three-letter extension does not end in another. *)
Lemma named_for_not_endswith (ext ext' fn : string) :
  named_for ext fn -> String.length ext = String.length ext' -> ext <> ext' ->
  Py.endswith fn ("." +:+ ext') = false.
Proof.
  intros (hex & _ & _ & ->) Hlen Hne. rewrite <- append_assoc.
  apply endswith_append_other.
  - now rewrite !length_append, Hlen.
  - intros H. apply Hne. now inversion H.
Qed.

Lemma capture_named (ρ : env) (url : string) (width height : option Z)
    (full_page : option bool) (format : string) (quality timeout : option Z)
    (w w' : world) (fn : string) :
  capture_screenshot ρ url width height full_page format quality timeout w
  = (Ok fn, w') ->
  (format = "png" -> named_for "png" fn) /\
  (format <> "png" -> named_for "jpg" fn).
Proof.
  intros H. apply capture_returns_filename in H. subst fn.
  unfold generated_filename.
  split; intros Hf; exists (Uuid.uuid4_hex (urandom ρ));
    (split; [apply uuid4_hex_length|]; split; [apply uuid4_hex_all_hex|]).
  - now subst format.
  - destruct (String.eqb_spec format "png"); [contradiction | reflexivity].
Qed.

Lemma normalize_format_png (f : string) :
  normalize_format f = "png" <-> f = "png".
Proof.
  unfold normalize_format. destruct (String.eqb_spec f "png"); split;
    try discriminate; auto; contradiction.
Qed.

(** What the body handler gives when the checks pass and no engine call
    fails. *)
Lemma take_screenshot_post_succeeds (ρ : env) (r : ScreenshotRequest.t)
    (f : string) (w : world) :
  passes_validation r = true ->
  ScreenshotRequest.format r = Some f ->
  (forall s, engine ρ s = None) ->
  exists fn w',
    take_screenshot_post ρ r w =
    (Ok (ScreenshotResponse true fn "Screenshot captured successfully"), w') /\
    fs w' = <[fn := File (pixels ρ) (clock ρ)]> (fs w) /\
    (f = "png" -> named_for "png" fn) /\
    (f <> "png" -> named_for "jpg" fn).
Proof.
  intros Hv Hf Hok.
  destruct (take_screenshot_post_accepts ρ r w Hv) as (f' & Hf' & ->).
  rewrite Hf in Hf'. injection Hf' as <-.
  destruct (capture_succeeds ρ (ScreenshotRequest.url r)
              (ScreenshotRequest.width r) (ScreenshotRequest.height r)
              (ScreenshotRequest.full_page r) (normalize_format f)
              (ScreenshotRequest.quality r) (ScreenshotRequest.timeout r)
              w Hok) as (w' & Hc & Hfs).
  destruct (capture_named _ _ _ _ _ _ _ _ _ _ _ Hc) as [Hpng Hjpg].
  eexists. exists w'. seq. rewrite Hc. split; [reflexivity|].
  split; [exact Hfs|]. split; intros H.
  - apply Hpng. exact (proj2 (normalize_format_png _) H).
  - apply Hjpg. intros E. exact (H (proj1 (normalize_format_png _) E)).
Qed.

Lemma take_screenshot_get_succeeds (ρ : env) (url : string) (width height : Z)
    (full_page : bool) (format : string) (quality timeout : Z) (w : world) :
  Py.startswith url "http://" || Py.startswith url "https://" = true ->
  (forall s, engine ρ s = None) ->
  exists fn w',
    take_screenshot_get ρ url width height full_page format quality timeout w
    = (Ok (ScreenshotJSON true fn "Screenshot captured successfully"
             ("/download/" +:+ fn)), w') /\
    fs w' = <[fn := File (pixels ρ) (clock ρ)]> (fs w) /\
    (format = "png" -> named_for "png" fn) /\
    (format <> "png" -> named_for "jpg" fn).
Proof.
  intros Hu Hok. rewrite (take_screenshot_get_accepts _ _ _ _ _ _ _ _ _ Hu).
  destruct (capture_succeeds ρ url (Some width) (Some height)
              (Some full_page) (normalize_format format) (Some quality)
              (Some timeout) w Hok) as (w' & Hc & Hfs).
  destruct (capture_named _ _ _ _ _ _ _ _ _ _ _ Hc) as [Hpng Hjpg].
  eexists. exists w'. seq. rewrite Hc. split; [reflexivity|].
  split; [exact Hfs|]. split; intros H.
  - apply Hpng. exact (proj2 (normalize_format_png _) H).
  - apply Hjpg. intros E. exact (H (proj1 (normalize_format_png _) E)).
Qed.

(** C4: every capture call builds the name
    [screenshot_<random-hex>.<ext>], with 32 hexadecimal digits and [ext]
    = png when the normalised format is png and jpg when it is jpeg; the
    call returns that name when no engine call fails.  So a valid request
    on either endpoint gets back a file name whose extension matches the
    format it asked for: png gives .png, jpeg and jpg give .jpg. *)
Theorem C4_filename_extension :
  (forall ρ url width height full_page format quality timeout w,
     (forall fn w',
        capture_screenshot ρ url width height full_page format quality
          timeout w = (Ok fn, w') ->
        (format = "png" ->
         named_for "png" fn /\ Py.endswith fn ".png" = true) /\
        (format = "jpeg" ->
         named_for "jpg" fn /\ Py.endswith fn ".jpg" = true)) /\
     ((forall s, engine ρ s = None) ->
      exists fn w',
        capture_screenshot ρ url width height full_page format quality
          timeout w = (Ok fn, w'))) /\
  (forall HttpUrl ρ b r f w,
     parse_body HttpUrl b = Some r ->
     passes_validation r = true ->
     ScreenshotRequest.format r = Some f ->
     (forall s, engine ρ s = None) ->
     exists fn w',
       POST_screenshot HttpUrl ρ b w =
       ({| status := 200;
           body := Json (ScreenshotResponse true fn
                           "Screenshot captured successfully") |}, w') /\
       (f = "png" -> named_for "png" fn /\ Py.endswith fn ".png" = true) /\
       (f = "jpeg" \/ f = "jpg" ->
        named_for "jpg" fn /\ Py.endswith fn ".jpg" = true)) /\
  (forall ρ q a w,
     parse_query q = Some a ->
     Py.startswith (Params.url a) "http://"
     || Py.startswith (Params.url a) "https://" = true ->
     (forall s, engine ρ s = None) ->
     exists fn w',
       GET_screenshot ρ q w =
       ({| status := 200;
           body := Json (ScreenshotJSON true fn
                           "Screenshot captured successfully"
                           ("/download/" +:+ fn)) |}, w') /\
       (Params.format a = "png" ->
        named_for "png" fn /\ Py.endswith fn ".png" = true) /\
       (Params.format a = "jpeg" \/ Params.format a = "jpg" ->
        named_for "jpg" fn /\ Py.endswith fn ".jpg" = true)).
Proof.
  split; [|split].
  - intros ρ url width height full_page format quality timeout w. split.
    + intros fn w' H. destruct (capture_named _ _ _ _ _ _ _ _ _ _ _ H)
        as [Hpng Hjpg].
      split; intros Hf.
      * split; [auto | apply (named_for_endswith "png"); auto].
      * assert (named_for "jpg" fn) by (apply Hjpg; subst; discriminate).
        split; [auto | apply (named_for_endswith "jpg"); auto].
    + intros Hok.
      destruct (capture_succeeds ρ url width height full_page format quality
                  timeout w Hok) as (w' & Hc & _).
      eauto.
  - intros HttpUrl ρ b r f w Hb Hv Hf Hok.
    destruct (take_screenshot_post_succeeds ρ r f w Hv Hf Hok)
      as (fn & w' & Hrun & _ & Hpng & Hjpg).
    exists fn, w'. unfold POST_screenshot, respond. rewrite Hb, Hrun.
    split; [reflexivity|]. split; intros H.
    + split; [auto | apply (named_for_endswith "png"); auto].
    + assert (named_for "jpg" fn)
        by (apply Hjpg; destruct H; subst; discriminate).
      split; [auto | apply (named_for_endswith "jpg"); auto].
  - intros ρ q a w Hq Hu Hok.
    destruct (take_screenshot_get_succeeds ρ (Params.url a) (Params.width a)
                (Params.height a) (Params.full_page a) (Params.format a)
                (Params.quality a) (Params.timeout a) w Hu Hok)
      as (fn & w' & Hrun & _ & Hpng & Hjpg).
    exists fn, w'. unfold GET_screenshot, respond. rewrite Hq, Hrun.
    split; [reflexivity|]. split; intros H.
    + split; [auto | apply (named_for_endswith "png"); auto].
    + assert (named_for "jpg" fn)
        by (apply Hjpg; destruct H as [H|H]; rewrite H; discriminate).
      split; [auto | apply (named_for_endswith "jpg"); auto].
Qed.

Lemma C4_filename_extension_witness :
  exists fn w',
    POST_screenshot http_only quiet_env (body_of "https://example.com")
      empty_world =
    ({| status := 200;
        body := Json (ScreenshotResponse true fn
                        "Screenshot captured successfully") |}, w') /\
    named_for "png" fn /\ Py.endswith fn ".png" = true.
Proof.
  destruct C4_filename_extension as (_ & Hpost & _).
  destruct (Hpost http_only quiet_env (body_of "https://example.com") _ "png"
              empty_world eq_refl eq_refl eq_refl (fun _ => eq_refl))
    as (fn & w' & Hrun & Hpng & _).
  exists fn, w'. split; [exact Hrun | apply Hpng; reflexivity].
Defined.

(** ** The engine is released *)

(** C5: whatever engine call fails, from context creation through the
    writing of the screenshot, and also when none fails, the browser a
    capture launched is closed before the capture is left: the set of
    live browsers after the call is the set before it, and the last
    engine call of the capture is the [close] of the browser it launched.
    When the launch itself fails there is no browser to release. *)
Theorem C5_capture_releases_engine (ρ : env) (url : string)
    (width height : option Z) (full_page : option bool) (format : string)
    (quality timeout : option Z) (w : world) :
  handles_fresh w ->
  let w' :=
    snd (capture_screenshot ρ url width height full_page format quality
           timeout w) in
  live w' = live w /\
  handles_fresh w' /\
  (engine ρ StLaunch = None ->
   exists mid,
     log w' =
     (log w ++ [Launch true ["--no-sandbox"; "--disable-dev-shm-usage"]]
        ++ mid ++ [Close (spawned w)])%list) /\
  (forall msg,
     engine ρ StLaunch = Some msg ->
     spawned w' = spawned w /\
     log w' =
     (log w ++ [Launch true ["--no-sandbox"; "--disable-dev-shm-usage"]])%list).
Proof.
  intros Hfresh w'. subst w'.
  destruct (engine ρ StLaunch) as [msg|] eqn:HL.
  - rewrite (capture_launch_fails ρ url width height full_page format quality
               timeout w msg HL). simpl.
    split; [reflexivity|]. split; [exact Hfresh|].
    split; [discriminate|]. intros ? _. split; reflexivity.
  - destruct (capture_closes ρ url width height full_page format quality
                timeout w HL) as (Hlive & Hsp & Hlog).
    assert (Hnew : spawned w ∉ live w).
    { intros Hin. apply Hfresh in Hin. lia. }
    assert (Hsame :
      live (snd (capture_screenshot ρ url width height full_page format
                   quality timeout w)) = live w).
    { rewrite Hlive. apply set_eq. intros x.
      rewrite elem_of_difference, elem_of_union, elem_of_singleton.
      split.
      - intros [[Hx|Hx] Hne]; [contradiction | exact Hx].
      - intros Hx. split; [right; exact Hx | intros ->; contradiction]. }
    split; [exact Hsame|]. split.
    + intros h Hh. rewrite Hsame in Hh. rewrite Hsp.
      apply Hfresh in Hh. lia.
    + split; [intros _; exact Hlog | discriminate].
Qed.

Lemma C5_capture_releases_engine_witness :
  live (snd (capture_screenshot timeout_env "https://example.com" (Some 800)
               (Some 600) (Some false) "png" None (Some 30000) empty_world))
  = live empty_world.
Proof.
  apply (C5_capture_releases_engine timeout_env "https://example.com"
           (Some 800) (Some 600) (Some false) "png" None (Some 30000)
           empty_world).
  intros h Hh. simpl in Hh. apply not_elem_of_empty in Hh. destruct Hh.
Defined.

(** ** Storage *)

Lemma os_stat_entry (filename : string) (w : world) (n : node) :
  fs w !! filename = Some n -> os_stat filename w = Entry n.
Proof. intros H. unfold os_stat. now rewrite H. Qed.

Lemma os_stat_absent (filename : string) (w : world) :
  ordinary_name filename = true -> fs w !! filename = None ->
  os_stat filename w = NoEntry.
Proof.
  unfold ordinary_name, os_stat. intros Ho H. rewrite H.
  apply andb_prop in Ho as [Hdot Hlen].
  destruct (dot_name filename); [discriminate|].
  apply Nat.leb_le in Hlen.
  destruct (Nat.ltb_spec NAME_MAX (String.length filename)); [lia|reflexivity].
Qed.

(** Without an entry, a name that cannot name one is [.] or [..], found
    as a directory, or a name the system refuses as too long. *)
Lemma os_stat_unnameable (filename : string) (w : world) :
  ordinary_name filename = false -> fs w !! filename = None ->
  os_stat filename w = Entry Directory \/ os_stat filename w = NameTooLong.
Proof.
  unfold ordinary_name, os_stat. intros Ho H. rewrite H.
  destruct (dot_name filename); [now left|]. simpl in Ho.
  apply Nat.leb_gt in Ho.
  destruct (Nat.ltb_spec NAME_MAX (String.length filename)); [now right|lia].
Qed.

Lemma exists_absent (filename : string) (w : world) :
  ordinary_name filename = true -> fs w !! filename = None ->
  path_exists filename w = (Ok false, w).
Proof.
  intros Ho H. unfold path_exists. now rewrite (os_stat_absent _ _ Ho H).
Qed.

Lemma exists_present (filename : string) (w : world) (n : node) :
  fs w !! filename = Some n -> path_exists filename w = (Ok true, w).
Proof.
  intros H. unfold path_exists. now rewrite (os_stat_entry _ _ _ H).
Qed.

(** X18: for a name that cannot name an entry of the storage directory
    ([.], [..], or a name over 255 bytes) the delete and the download
    endpoint answer 500 and change nothing: [.] and [..] exist as
    directories, which [os.remove] refuses and which cannot be sent as a
    file, and the [OSError] that [exists()] raises for a name that is too
    long is raised outside any [try]. *)
Theorem unnameable_is_500 (filename : string) (w : world) :
  ordinary_name filename = false -> fs w !! filename = None ->
  status (fst (DELETE_screenshot filename w)) = 500 /\
  snd (DELETE_screenshot filename w) = w /\
  status (fst (GET_download filename w)) = 500 /\
  snd (GET_download filename w) = w.
Proof.
  intros Ho H.
  unfold DELETE_screenshot, GET_download, respond, delete_screenshot,
    download_screenshot, path_exists, os_remove, send_file, os_error.
  seq. cbv zeta.
  destruct (os_stat_unnameable _ _ Ho H) as [Hs | Hs];
    repeat (rewrite !Hs; simpl); repeat split.
Qed.

Lemma unnameable_is_500_witness :
  status (fst (DELETE_screenshot long_name stored_world)) = 500 /\
  status (fst (GET_download "." stored_world)) = 500.
Proof.
  split.
  - apply (unnameable_is_500 long_name stored_world);
      vm_compute; reflexivity.
  - apply (unnameable_is_500 "." stored_world); vm_compute; reflexivity.
Defined.

(** C6 as stated fails: the storage directory holds no file named [..],
    and DELETE /screenshot/.. answers 500, not 404. *)
Lemma C6_counterexample :
  fs stored_world !! ".." = None /\
  status (fst (DELETE_screenshot ".." stored_world)) = 500 /\
  DELETE_screenshot ".." stored_world <> (not_found, stored_world).
Proof.
  split; [vm_compute; reflexivity|].
  split; [vm_compute; reflexivity|].
  vm_compute. discriminate.
Qed.

(** C6 (amended): for a filename other than [.] and [..] and of at most
    255 bytes, DELETE /screenshot/{filename} answers 404 when the named
    file is absent from the storage directory; when it is there, the file
    is removed and the answer is 200 with [{success, message}]; so the
    same request made again answers 404. *)
Theorem C6_delete_then_not_found (filename : string) (w : world) :
  ordinary_name filename = true ->
  (fs w !! filename = None ->
   DELETE_screenshot filename w = (not_found, w)) /\
  (forall c t,
     fs w !! filename = Some (File c t) ->
     exists w',
       DELETE_screenshot filename w =
       ({| status := 200;
           body := Json (Deleted true
                           ("Screenshot " +:+ filename +:+
                            " deleted successfully")) |}, w') /\
       fs w' = delete filename (fs w) /\
       engine_untouched w w' /\
       DELETE_screenshot filename w' = (not_found, w')).
Proof.
  intros Ho. split.
  - intros H. unfold DELETE_screenshot, respond, delete_screenshot. seq.
    rewrite (exists_absent _ _ Ho H). reflexivity.
  - intros c t H.
    eexists. split; [|split; [|split]].
    + unfold DELETE_screenshot, respond, delete_screenshot. seq.
      rewrite (exists_present _ _ _ H). simpl.
      unfold os_remove. rewrite (os_stat_entry _ _ _ H). reflexivity.
    + reflexivity.
    + repeat split.
    + unfold DELETE_screenshot, respond, delete_screenshot. seq.
      rewrite (exists_absent _ _ Ho); [reflexivity|].
      simpl. apply lookup_delete_eq.
Qed.

(** C7 as stated fails: the storage directory holds no file named [..],
    and GET /download/.. answers 500, not 404. *)
Lemma C7_counterexample :
  fs stored_world !! ".." = None /\
  status (fst (GET_download ".." stored_world)) = 500 /\
  GET_download ".." stored_world <> (not_found, stored_world).
Proof.
  split; [vm_compute; reflexivity|].
  split; [vm_compute; reflexivity|].
  vm_compute. discriminate.
Qed.

(** C7 (amended): for a filename other than [.] and [..] and of at most
    255 bytes, GET /download/{filename} answers 404 when the named file
    is absent; when it is there the answer carries the bytes of the file,
    and the media type is image/png when the name ends in [.png] and
    image/jpeg for every other name. *)
Theorem C7_download_media_type (filename : string) (w : world) :
  ordinary_name filename = true ->
  (fs w !! filename = None ->
   GET_download filename w = (not_found, w)) /\
  (forall c t,
     fs w !! filename = Some (File c t) ->
     (Py.endswith filename ".png" = true ->
      GET_download filename w =
      ({| status := 200; body := FileBytes "image/png" filename c |}, w)) /\
     (Py.endswith filename ".png" = false ->
      GET_download filename w =
      ({| status := 200; body := FileBytes "image/jpeg" filename c |}, w))).
Proof.
  intros Ho. split.
  - intros H. unfold GET_download, respond, download_screenshot. seq.
    rewrite (exists_absent _ _ Ho H). reflexivity.
  - intros c t H. split; intros Hs;
      unfold GET_download, respond, download_screenshot; seq;
      rewrite (exists_present _ _ _ H); simpl; rewrite Hs;
      unfold send_file; rewrite (os_stat_entry _ _ _ H); reflexivity.
Qed.

Lemma C6_delete_then_not_found_witness :
  exists w',
    DELETE_screenshot "screenshot_a.png" stored_world =
    ({| status := 200;
        body := Json (Deleted true
                        "Screenshot screenshot_a.png deleted successfully") |},
     w') /\
    DELETE_screenshot "screenshot_a.png" w' = (not_found, w').
Proof.
  destruct (C6_delete_then_not_found "screenshot_a.png" stored_world eq_refl)
    as [_ H].
  destruct (H [Byte.x89; Byte.x50] 11) as (w' & H1 & _ & _ & H2).
  - vm_compute. reflexivity.
  - exists w'. split; [exact H1 | exact H2].
Defined.

Lemma C7_download_media_type_witness :
  GET_download "screenshot_b.jpg" stored_world =
  ({| status := 200;
      body := FileBytes "image/jpeg" "screenshot_b.jpg"
                [Byte.xff; Byte.xd8; Byte.xff] |}, stored_world)
  /\ GET_download "missing.png" stored_world = (not_found, stored_world).
Proof.
  split.
  - destruct (C7_download_media_type "screenshot_b.jpg" stored_world eq_refl)
      as [_ H].
    destruct (H [Byte.xff; Byte.xd8; Byte.xff] 12) as [_ Hjpeg].
    + vm_compute. reflexivity.
    + apply Hjpeg. vm_compute. reflexivity.
  - destruct (C7_download_media_type "missing.png" stored_world eq_refl)
      as [H _].
    apply H. vm_compute. reflexivity.
Defined.

(** ** Listing *)

Lemma collect_omap (files : list (string * node)) (acc : list item) :
  collect files acc = (acc ++ omap item_of files)%list.
Proof.
  revert acc. induction files as [|[name n] rest IH]; intros acc; simpl.
  - now rewrite app_nil_r.
  - rewrite IH. destruct n; unfold item_of; simpl; [|reflexivity].
    now rewrite <- app_assoc.
Qed.

Lemma elem_of_filter_bool {A} (P : A -> bool) (l : list A) (x : A) :
  x ∈ List.filter P l <-> x ∈ l /\ P x = true.
Proof. rewrite !list_elem_of_In. apply filter_In. Qed.

Lemma names_sublist (P : string * node -> bool) (l : list (string * node)) :
  (filename <$> omap item_of (List.filter P l)) `sublist_of` l.*1.
Proof.
  induction l as [|[name n] l IH]; simpl; [constructor|].
  destruct (P (name, n)); simpl.
  - destruct n; unfold item_of; simpl.
    + now apply sublist_skip.
    + now apply sublist_cons.
  - now apply sublist_cons.
Qed.

Lemma list_screenshots_run (w : world) :
  list_screenshots w =
  let screenshots :=
    omap item_of
      (List.filter (fun e => Py.startswith e.1 "screenshot_")
         (map_to_list (fs w))) in
  (Ok (Listing true (length screenshots) screenshots), w).
Proof.
  unfold list_screenshots, glob_screenshots. seq.
  now rewrite collect_omap.
Qed.

(** C8: for every state of the storage directory GET /list answers 200
    with [{success, count, screenshots}], where [screenshots] has exactly
    one entry [{filename, size, created}] for each regular file of the
    directory whose name begins with [screenshot_] and no other entry,
    and [count] is the length of that list. *)
Theorem C8_list_matches_storage (w : world) :
  exists screenshots,
    GET_list w =
    ({| status := 200;
        body := Json (Listing true (length screenshots) screenshots) |}, w) /\
    NoDup (filename <$> screenshots) /\
    (forall it,
       it ∈ screenshots <->
       exists c,
         fs w !! filename it = Some (File c (created it)) /\
         size it = st_size c /\
         Py.startswith (filename it) "screenshot_" = true).
Proof.
  eexists. split; [|split].
  - unfold GET_list, respond. rewrite list_screenshots_run. reflexivity.
  - eapply sublist_NoDup; [|apply names_sublist].
    apply NoDup_fst_map_to_list.
  - intros it. rewrite list_elem_of_omap. split.
    + intros ([name n] & Hin & Hit).
      apply elem_of_filter_bool in Hin as [Hin Hp].
      apply elem_of_map_to_list in Hin.
      destruct n as [c t|]; unfold item_of in Hit; simpl in Hit;
        [|discriminate].
      injection Hit as <-. simpl in *. eauto.
    + intros (c & Hfs & Hsz & Hp).
      exists (filename it, File c (created it)). split.
      * apply elem_of_filter_bool. split; [|exact Hp].
        now apply elem_of_map_to_list.
      * unfold item_of. simpl. rewrite <- Hsz. now destruct it.
Qed.

Example list_stored_world :
  fst (GET_list stored_world) =
  {| status := 200;
     body := Json (Listing true 2
                     [{| filename := "screenshot_a.png"; size := 2;
                         created := 11 |};
                      {| filename := "screenshot_b.jpg"; size := 3;
                         created := 12 |}]) |}.
Proof. vm_compute. reflexivity. Qed.

(** ** Bounds of the query endpoint, and none on the body's timeout *)

Lemma Query_int_rejects (default lo hi : Z) (x : option Z) :
  out_of_range lo hi x -> Query_int default lo hi x = None.
Proof.
  intros (v & -> & Hv). unfold Query_int.
  destruct (Z.leb_spec lo v), (Z.leb_spec v hi); simpl; try reflexivity; lia.
Qed.

Lemma Query_int_accepts (default lo hi : Z) (x : option Z) :
  absent_or_within lo hi x ->
  Query_int default lo hi x = Some (default_to default x).
Proof.
  destruct x as [v|]; simpl; intros H; [|reflexivity].
  destruct (Z.leb_spec lo v), (Z.leb_spec v hi); simpl; try reflexivity; lia.
Qed.

Ltac option_chain :=
  repeat match goal with
    | |- (?x ≫= _) = None => destruct x; simpl; [|reflexivity]
    end;
  try reflexivity.

(** One bound broken is enough for the query not to parse. *)
Lemma parse_query_rejects (q : Query.t) :
  out_of_range 100 3840 (Query.width q) \/
  out_of_range 100 2160 (Query.height q) \/
  out_of_range 1 100 (Query.quality q) \/
  out_of_range 5000 120000 (Query.timeout q) ->
  parse_query q = None.
Proof.
  intros [H|[H|[H|H]]]; unfold parse_query, Query_bool.
  - rewrite (Query_int_rejects 1920 _ _ _ H). option_chain.
  - rewrite (Query_int_rejects 1080 _ _ _ H). option_chain.
  - rewrite (Query_int_rejects 80 _ _ _ H). option_chain.
  - rewrite (Query_int_rejects 30000 _ _ _ H). option_chain.
Qed.

(** With the url there, a format of the three names or none, and every
    number left out or within its bounds, the query parses. *)
Lemma parse_query_accepts (q : Query.t) (u : string) :
  Query.url q = Some u ->
  absent_or_within 100 3840 (Query.width q) ->
  absent_or_within 100 2160 (Query.height q) ->
  absent_or_within 1 100 (Query.quality q) ->
  absent_or_within 5000 120000 (Query.timeout q) ->
  match Query.format q with Some f => format_regex f = true | None => True end ->
  parse_query q =
  Some {| Params.url := u;
          Params.width := default_to 1920 (Query.width q);
          Params.height := default_to 1080 (Query.height q);
          Params.full_page := default_to false (Query.full_page q);
          Params.format := default_to "png" (Query.format q);
          Params.quality := default_to 80 (Query.quality q);
          Params.timeout := default_to 30000 (Query.timeout q) |}.
Proof.
  intros Hu Hw Hh Hq Ht Hf. unfold parse_query.
  rewrite Hu, (Query_int_accepts _ _ _ _ Hw), (Query_int_accepts _ _ _ _ Hh),
    (Query_int_accepts _ _ _ _ Hq), (Query_int_accepts _ _ _ _ Ht).
  simpl. unfold Query_bool, Query_str.
  destruct (Query.full_page q), (Query.format q) as [f|]; simpl;
    try rewrite Hf; reflexivity.
Qed.

Lemma respond_world (m : M payload) (w : world) :
  snd (respond m w) = snd (m w).
Proof.
  unfold respond. destruct (m w) as [[p|e] w']; [destruct p | destruct e];
    reflexivity.
Qed.

(** The world a valid body request leaves is the one its capture leaves. *)
Lemma take_screenshot_post_world (ρ : env) (r : ScreenshotRequest.t)
    (w : world) :
  passes_validation r = true ->
  exists f,
    snd (take_screenshot_post ρ r w) =
    snd (capture_screenshot ρ
           (ScreenshotRequest.url r) (ScreenshotRequest.width r)
           (ScreenshotRequest.height r) (ScreenshotRequest.full_page r) f
           (ScreenshotRequest.quality r) (ScreenshotRequest.timeout r) w).
Proof.
  intros Hv. destruct (take_screenshot_post_accepts ρ r w Hv) as (f & _ & ->).
  exists (normalize_format f). seq.
  destruct (capture_screenshot _ _ _ _ _ _ _ _ w) as [[fn|e] w']; reflexivity.
Qed.

Section Body_timeout.

Variable HttpUrl : string -> option string.

(** Setting the timeout of a body to any integer changes nothing else
    about how it parses or validates. *)
Lemma parse_body_with_timeout (b : Body.t) (r : ScreenshotRequest.t)
    (t : Z) :
  parse_body HttpUrl b = Some r ->
  exists r',
    parse_body HttpUrl (body_with_timeout b t) = Some r' /\
    ScreenshotRequest.timeout r' = Some t /\
    passes_validation r' = passes_validation r.
Proof.
  unfold parse_body. simpl.
  destruct (Body.url b) as [| |u]; try discriminate.
  destruct (HttpUrl u) as [u'|]; simpl; [|discriminate].
  intros H. injection H as <-. eexists. split; [reflexivity|].
  split; reflexivity.
Qed.

End Body_timeout.

(** C9: on GET /screenshot a width outside [100,3840], a height outside
    [100,2160], a quality outside [1,100] or a timeout outside
    [5000,120000] is rejected where the parameters are parsed, with status
    422, before the handler runs: the world is unchanged, so no capture
    is attempted.  On POST /screenshot the timeout has no bound: a body
    that is accepted stays accepted when its timeout is set to any
    integer, the capture starts, and that integer is what the page is
    given as its default timeout. *)
Theorem C9_query_bounds_body_timeout_free :
  (forall ρ q w,
     out_of_range 100 3840 (Query.width q) \/
     out_of_range 100 2160 (Query.height q) \/
     out_of_range 1 100 (Query.quality q) \/
     out_of_range 5000 120000 (Query.timeout q) ->
     GET_screenshot ρ q w = ({| status := 422; body := ValidationErrors |}, w))
  /\
  (forall HttpUrl ρ b r t w,
     parse_body HttpUrl b = Some r ->
     passes_validation r = true ->
     let w' := snd (POST_screenshot HttpUrl ρ (body_with_timeout b t) w) in
     (exists rest,
        log w' =
        (log w ++
         Launch true ["--no-sandbox"; "--disable-dev-shm-usage"] :: rest)%list)
     /\
     (engine ρ StLaunch = None -> engine ρ StNewContext = None ->
      engine ρ StNewPage = None ->
      SetDefaultTimeout (spawned w) (Some t) ∈ log w')).
Proof.
  split.
  - intros ρ q w H. unfold GET_screenshot.
    now rewrite (parse_query_rejects q H).
  - intros HttpUrl ρ b r t w Hb Hv w'. subst w'.
    destruct (parse_body_with_timeout HttpUrl b r t Hb)
      as (r' & Hb' & Ht & Hv').
    rewrite Hv in Hv'.
    unfold POST_screenshot. rewrite Hb', respond_world.
    destruct (take_screenshot_post_world ρ r' w Hv') as (f & ->).
    rewrite Ht. split.
    + apply capture_launches.
    + apply capture_sets_timeout.
Qed.

Lemma C9_query_bounds_body_timeout_free_witness :
  GET_screenshot quiet_env (query_with_timeout "https://example.com" 4999)
    empty_world
  = ({| status := 422; body := ValidationErrors |}, empty_world)
  /\
  SetDefaultTimeout 0 (Some (-5)) ∈
    log (snd (POST_screenshot http_only quiet_env
                (body_with_timeout (body_of "https://example.com") (-5))
                empty_world)).
Proof.
  destruct C9_query_bounds_body_timeout_free as [Hget Hpost]. split.
  - apply Hget. right. right. right. exists 4999.
    split; [reflexivity | lia].
  - apply (Hpost http_only quiet_env (body_of "https://example.com")
             _ (-5) empty_world eq_refl eq_refl); reflexivity.
Defined.

(** ** Defaults *)

Lemma parse_query_inv (q : Query.t) (a : Params.t) :
  parse_query q = Some a ->
  Query.url q = Some (Params.url a) /\
  Query_int 1920 100 3840 (Query.width q) = Some (Params.width a) /\
  Query_int 1080 100 2160 (Query.height q) = Some (Params.height a) /\
  Query_bool false (Query.full_page q) = Some (Params.full_page a) /\
  Query_str "png" format_regex (Query.format q) = Some (Params.format a) /\
  Query_int 80 1 100 (Query.quality q) = Some (Params.quality a) /\
  Query_int 30000 5000 120000 (Query.timeout q) = Some (Params.timeout a).
Proof.
  unfold parse_query. intros H.
  destruct (Query.url q); simpl in H; [|discriminate].
  destruct (Query_int 1920 _ _ _); simpl in H; [|discriminate].
  destruct (Query_int 1080 _ _ _); simpl in H; [|discriminate].
  destruct (Query_bool _ _); simpl in H; [|discriminate].
  destruct (Query_str _ _ _); simpl in H; [|discriminate].
  destruct (Query_int 80 _ _ _); simpl in H; [|discriminate].
  destruct (Query_int 30000 _ _ _); simpl in H; [|discriminate].
  injection H as <-. simpl. repeat split.
Qed.

(** C10: on both entry points every capture parameter but the url may be
    left out, and a parameter left out takes the same default on each:
    width 1920, height 1080, full_page false, format "png", quality 80,
    timeout 30000.  A request with only a url parses on both; a request
    without a url is refused on both. *)
Theorem C10_defaults :
  (forall HttpUrl b r,
     parse_body HttpUrl b = Some r ->
     (Body.width b = Omitted -> ScreenshotRequest.width r = Some 1920) /\
     (Body.height b = Omitted -> ScreenshotRequest.height r = Some 1080) /\
     (Body.full_page b = Omitted ->
      ScreenshotRequest.full_page r = Some false) /\
     (Body.format b = Omitted -> ScreenshotRequest.format r = Some "png") /\
     (Body.quality b = Omitted -> ScreenshotRequest.quality r = Some 80) /\
     (Body.timeout b = Omitted -> ScreenshotRequest.timeout r = Some 30000))
  /\
  (forall q a,
     parse_query q = Some a ->
     (Query.width q = None -> Params.width a = 1920) /\
     (Query.height q = None -> Params.height a = 1080) /\
     (Query.full_page q = None -> Params.full_page a = false) /\
     (Query.format q = None -> Params.format a = "png") /\
     (Query.quality q = None -> Params.quality a = 80) /\
     (Query.timeout q = None -> Params.timeout a = 30000))
  /\
  (forall HttpUrl u u',
     HttpUrl u = Some u' ->
     parse_body HttpUrl (body_of u) =
     Some {| ScreenshotRequest.url := u';
             ScreenshotRequest.width := Some 1920;
             ScreenshotRequest.height := Some 1080;
             ScreenshotRequest.full_page := Some false;
             ScreenshotRequest.format := Some "png";
             ScreenshotRequest.quality := Some 80;
             ScreenshotRequest.timeout := Some 30000 |})
  /\
  (forall u,
     parse_query (query_of u) =
     Some {| Params.url := u; Params.width := 1920; Params.height := 1080;
             Params.full_page := false; Params.format := "png";
             Params.quality := 80; Params.timeout := 30000 |})
  /\
  (forall HttpUrl ρ b w,
     Body.url b = Omitted ->
     POST_screenshot HttpUrl ρ b w =
     ({| status := 422; body := ValidationErrors |}, w))
  /\
  (forall ρ q w,
     Query.url q = None ->
     GET_screenshot ρ q w =
     ({| status := 422; body := ValidationErrors |}, w)).
Proof.
  split; [|split; [|split; [|split; [|split]]]].
  - intros HttpUrl b r. unfold parse_body.
    destruct (Body.url b) as [| |u]; try discriminate.
    destruct (HttpUrl u) as [u'|]; simpl; [|discriminate].
    intros H. injection H as <-. simpl.
    repeat split; intros ->; reflexivity.
  - intros q a H.
    destruct (parse_query_inv q a H) as (_ & Hw & Hh & Hp & Hf & Hq & Ht).
    repeat split; intros E; rewrite E in *; simpl in *; congruence.
  - intros HttpUrl u u' H. unfold parse_body. simpl. now rewrite H.
  - reflexivity.
  - intros HttpUrl ρ b w H. unfold POST_screenshot, parse_body.
    now rewrite H.
  - intros ρ q w H. unfold GET_screenshot, parse_query. now rewrite H.
Qed.

Lemma C10_defaults_witness :
  parse_body http_only (body_of "https://example.com") =
  Some {| ScreenshotRequest.url := "https://example.com";
          ScreenshotRequest.width := Some 1920;
          ScreenshotRequest.height := Some 1080;
          ScreenshotRequest.full_page := Some false;
          ScreenshotRequest.format := Some "png";
          ScreenshotRequest.quality := Some 80;
          ScreenshotRequest.timeout := Some 30000 |}
  /\ Params.timeout
       {| Params.url := "https://example.com"; Params.width := 1920;
          Params.height := 1080; Params.full_page := false;
          Params.format := "png"; Params.quality := 80;
          Params.timeout := 30000 |} = 30000.
Proof.
  destruct C10_defaults as (_ & Hget & Hbody & _). split.
  - apply Hbody. reflexivity.
  - apply (Hget (query_of "https://example.com")); reflexivity.
Defined.

Lemma C8_list_matches_storage_witness :
  exists screenshots,
    GET_list stored_world =
    ({| status := 200;
        body := Json (Listing true (length screenshots) screenshots) |},
     stored_world) /\
    {| filename := "screenshot_a.png"; size := 2; created := 11 |}
    ∈ screenshots.
Proof.
  destruct (C8_list_matches_storage stored_world) as (l & Hrun & _ & Hin).
  exists l. split; [exact Hrun|]. apply Hin.
  exists [Byte.x89; Byte.x50]. repeat split; vm_compute; reflexivity.
Defined.

(** * Properties of the whole service *)

(** ** What a capture returns and what it writes *)

Ltac capture_unfold :=
  unfold capture_screenshot, chromium_launch, new_context, new_page,
    set_default_timeout, goto, sleep, page_screenshot, browser_close,
    first_failure;
  run.

Ltac engine_cases ρ :=
  repeat match goal with
    | |- context [engine ρ ?s] =>
        let E := fresh "E" in destruct (engine ρ s) eqn:E; simpl
    end.

(** The result of a capture is decided by the first engine call that
    fails: its message is raised, or the generated name is returned. *)
Lemma capture_result (ρ : env) (url : string) (width height : option Z)
    (full_page : option bool) (format : string) (quality timeout : option Z)
    (w : world) :
  fst (capture_screenshot ρ url width height full_page format quality
         timeout w) =
  match first_failure ρ with
  | Some msg => Raise (PlaywrightError msg)
  | None => Ok (generated_filename ρ format)
  end.
Proof. capture_unfold. engine_cases ρ; reflexivity. Qed.

(** The storage directory after a capture: the image under the generated
    name when every engine call succeeded, and what it was before when
    one failed. *)
Lemma capture_storage (ρ : env) (url : string) (width height : option Z)
    (full_page : option bool) (format : string) (quality timeout : option Z)
    (w : world) :
  fs (snd (capture_screenshot ρ url width height full_page format quality
             timeout w)) =
  match first_failure ρ with
  | Some _ => fs w
  | None => <[generated_filename ρ format := File (pixels ρ) (clock ρ)]> (fs w)
  end.
Proof.
  capture_unfold. engine_cases ρ; try reflexivity.
  unfold generated_filename. destruct (String.eqb format "jpeg"); reflexivity.
Qed.

(** X1: a capture reads and writes one entry of the storage directory,
    the one under the name it generated.  Every other entry is as it was,
    whatever the outcome; when an engine call fails nothing at all is
    written; when none fails the generated name holds the rendered
    image. *)
Theorem capture_touches_only_its_file (ρ : env) (url : string)
    (width height : option Z) (full_page : option bool) (format : string)
    (quality timeout : option Z) (w : world) :
  let w' :=
    snd (capture_screenshot ρ url width height full_page format quality
           timeout w) in
  (forall name,
     name <> generated_filename ρ format -> fs w' !! name = fs w !! name) /\
  (forall msg, first_failure ρ = Some msg -> fs w' = fs w) /\
  (first_failure ρ = None ->
   fs w' !! generated_filename ρ format = Some (File (pixels ρ) (clock ρ))).
Proof.
  intros w'. subst w'. rewrite capture_storage.
  destruct (first_failure ρ) as [m|]; repeat split.
  - intros H. discriminate H.
  - intros name Hne. now rewrite lookup_insert_ne.
  - intros msg H. discriminate H.
  - intros _. apply lookup_insert_eq.
Qed.

Lemma capture_touches_only_its_file_witness :
  fs (snd (capture_screenshot timeout_env "https://example.com" (Some 800)
             (Some 600) (Some false) "png" None (Some 30000) stored_world))
  = fs stored_world
  /\
  fs (snd (capture_screenshot quiet_env "https://example.com" (Some 800)
             (Some 600) (Some false) "png" None (Some 30000) stored_world))
    !! "notes.txt" = Some (File [] 13).
Proof.
  split.
  - apply (capture_touches_only_its_file timeout_env "https://example.com"
             (Some 800) (Some 600) (Some false) "png" None (Some 30000)
             stored_world) with (msg := "Timeout 30000ms exceeded.").
    reflexivity.
  - destruct (capture_touches_only_its_file quiet_env "https://example.com"
                (Some 800) (Some 600) (Some false) "png" None (Some 30000)
                stored_world) as [H _].
    rewrite H; [vm_compute; reflexivity | vm_compute; discriminate].
Defined.

(** ** Status codes of the two screenshot endpoints *)

Lemma capture_split (ρ : env) (url : string) (width height : option Z)
    (full_page : option bool) (format : string) (quality timeout : option Z)
    (w : world) :
  exists w',
    capture_screenshot ρ url width height full_page format quality timeout w =
    (match first_failure ρ with
     | Some msg => Raise (PlaywrightError msg)
     | None => Ok (generated_filename ρ format)
     end, w').
Proof.
  pose proof (capture_result ρ url width height full_page format quality
                timeout w) as H.
  destruct (capture_screenshot _ _ _ _ _ _ _ _ w) as [r w'].
  simpl in H. subst r. now exists w'.
Qed.

(** The answer of the body handler to a request that passes the checks. *)
Lemma take_screenshot_post_answer (ρ : env) (r : ScreenshotRequest.t)
    (w : world) :
  passes_validation r = true ->
  exists f,
    ScreenshotRequest.format r = Some f /\
    fst (take_screenshot_post ρ r w) =
    match first_failure ρ with
    | Some msg =>
        Raise (HTTPException 500 ("Failed to capture screenshot: " +:+ msg))
    | None =>
        Ok (ScreenshotResponse true
              (generated_filename ρ (normalize_format f))
              "Screenshot captured successfully")
    end.
Proof.
  intros Hv. destruct (take_screenshot_post_accepts ρ r w Hv) as (f & Hf & ->).
  exists f. split; [exact Hf|].
  destruct (capture_split ρ (ScreenshotRequest.url r)
              (ScreenshotRequest.width r) (ScreenshotRequest.height r)
              (ScreenshotRequest.full_page r) (normalize_format f)
              (ScreenshotRequest.quality r) (ScreenshotRequest.timeout r) w)
    as (w' & Hc).
  seq. rewrite Hc. destruct (first_failure ρ); reflexivity.
Qed.

Lemma take_screenshot_get_answer (ρ : env) (url : string) (width height : Z)
    (full_page : bool) (format : string) (quality timeout : Z) (w : world) :
  Py.startswith url "http://" || Py.startswith url "https://" = true ->
  fst (take_screenshot_get ρ url width height full_page format quality
         timeout w) =
  match first_failure ρ with
  | Some msg =>
      Raise (HTTPException 500 ("Failed to capture screenshot: " +:+ msg))
  | None =>
      Ok (ScreenshotJSON true (generated_filename ρ (normalize_format format))
            "Screenshot captured successfully"
            ("/download/" +:+ generated_filename ρ (normalize_format format)))
  end.
Proof.
  intros Hu. rewrite (take_screenshot_get_accepts _ _ _ _ _ _ _ _ _ Hu).
  destruct (capture_split ρ url (Some width) (Some height) (Some full_page)
              (normalize_format format) (Some quality) (Some timeout) w)
    as (w' & Hc).
  seq. rewrite Hc. destruct (first_failure ρ); reflexivity.
Qed.

Lemma respond_fst (m : M payload) (w : world) (r : res payload) :
  fst (m w) = r ->
  (forall p mt fn, r <> Ok (FileResponse p mt fn)) ->
  fst (respond m w) =
  match r with
  | Ok p => {| status := 200; body := Json p |}
  | Raise (HTTPException c d) => {| status := c; body := Json (Detail d) |}
  | Raise _ => {| status := 500; body := InternalServerError |}
  end.
Proof.
  intros H Hnf. unfold respond. destruct (m w) as [r' w']. simpl in H. subst r'.
  destruct r as [p|e]; [|destruct e; reflexivity].
  destruct p; try reflexivity. now destruct (Hnf path media_type filename0).
Qed.

(** X2: for a request the framework has decoded into typed fields (a body
    as [Body.t], a query as [Query.t]), the status of POST /screenshot is
    422 when the model refuses the body (url missing, null or rejected by
    [HttpUrl]), 200 when the checks of the handler pass and no engine call
    fails, and 500 in every other case; the status of GET /screenshot is
    422 when a declared constraint of a parameter fails, 200 when the url
    has an http or https prefix and no engine call fails, and 500 in
    every other case.  So none of the 400s the two handlers raise
    themselves reaches the client as a 400. *)
Theorem screenshot_status_codes :
  (forall HttpUrl ρ b w,
     status (fst (POST_screenshot HttpUrl ρ b w)) =
     match parse_body HttpUrl b with
     | None => 422
     | Some r =>
         if passes_validation r
         then match first_failure ρ with None => 200 | Some _ => 500 end
         else 500
     end) /\
  (forall ρ q w,
     status (fst (GET_screenshot ρ q w)) =
     match parse_query q with
     | None => 422
     | Some a =>
         if Py.startswith (Params.url a) "http://"
            || Py.startswith (Params.url a) "https://"
         then match first_failure ρ with None => 200 | Some _ => 500 end
         else 500
     end).
Proof.
  split.
  - intros HttpUrl ρ b w. unfold POST_screenshot.
    destruct (parse_body HttpUrl b) as [r|]; [|reflexivity].
    destruct (passes_validation r) eqn:Hv.
    + destruct (take_screenshot_post_answer ρ r w Hv) as (f & _ & Hans).
      rewrite (respond_fst _ _ _ Hans);
        destruct (first_failure ρ); try reflexivity; discriminate.
    + destruct (take_screenshot_post_rejects ρ r w Hv) as (d & Hd).
      now rewrite (respond_raise _ _ _ _ _ Hd).
  - intros ρ q w. unfold GET_screenshot.
    destruct (parse_query q) as [a|]; [|reflexivity].
    destruct (Py.startswith (Params.url a) "http://"
              || Py.startswith (Params.url a) "https://") eqn:Hu.
    + rewrite (respond_fst _ _ _
                 (take_screenshot_get_answer ρ _ _ _ _ _ _ _ w Hu));
        destruct (first_failure ρ); try reflexivity; discriminate.
    + now rewrite (respond_raise _ _ _ _ _
                     (take_screenshot_get_rejects ρ _ _ _ _ _ _ _ w Hu)).
Qed.

(** ** A failed capture *)

Lemma capture_keeps_live (ρ : env) (url : string) (width height : option Z)
    (full_page : option bool) (format : string) (quality timeout : option Z)
    (w : world) :
  handles_fresh w ->
  live (snd (capture_screenshot ρ url width height full_page format quality
               timeout w)) = live w /\
  handles_fresh (snd (capture_screenshot ρ url width height full_page format
                        quality timeout w)).
Proof.
  intros Hfresh. destruct (engine ρ StLaunch) as [msg|] eqn:HL.
  - rewrite (capture_launch_fails ρ url width height full_page format quality
               timeout w msg HL). split; [reflexivity | exact Hfresh].
  - destruct (capture_closes ρ url width height full_page format quality
                timeout w HL) as (Hlive & Hsp & _).
    assert (Hnew : spawned w ∉ live w).
    { intros Hin. apply Hfresh in Hin. lia. }
    assert (Hsame :
      live (snd (capture_screenshot ρ url width height full_page format
                   quality timeout w)) = live w).
    { rewrite Hlive. apply set_eq. intros x.
      rewrite elem_of_difference, elem_of_union, elem_of_singleton.
      split.
      - intros [[Hx|Hx] Hne]; [contradiction | exact Hx].
      - intros Hx. split; [right; exact Hx | intros ->; contradiction]. }
    split; [exact Hsame|].
    intros h Hh. rewrite Hsame in Hh. rewrite Hsp. apply Hfresh in Hh. lia.
Qed.

Lemma take_screenshot_get_world (ρ : env) (url : string) (width height : Z)
    (full_page : bool) (format : string) (quality timeout : Z) (w : world) :
  Py.startswith url "http://" || Py.startswith url "https://" = true ->
  snd (take_screenshot_get ρ url width height full_page format quality
         timeout w) =
  snd (capture_screenshot ρ url (Some width) (Some height) (Some full_page)
         (normalize_format format) (Some quality) (Some timeout) w).
Proof.
  intros Hu. rewrite (take_screenshot_get_accepts _ _ _ _ _ _ _ _ _ Hu). seq.
  destruct (capture_screenshot _ _ _ _ _ _ _ _ w) as [[fn|e] w']; reflexivity.
Qed.

(** X3: when an engine call fails during the capture of a request that
    was accepted (navigation timeout, refused connection, a screenshot
    that cannot be written), both screenshot endpoints answer 500 with the
    detail "Failed to capture screenshot: " followed by the message of the
    first call that failed; nothing is written to storage and no browser
    is left running. *)
Theorem capture_failure_is_500_with_cause :
  (forall HttpUrl ρ b r w msg,
     parse_body HttpUrl b = Some r ->
     passes_validation r = true ->
     first_failure ρ = Some msg ->
     handles_fresh w ->
     fst (POST_screenshot HttpUrl ρ b w) =
     {| status := 500;
        body := Json (Detail ("Failed to capture screenshot: " +:+ msg)) |} /\
     fs (snd (POST_screenshot HttpUrl ρ b w)) = fs w /\
     live (snd (POST_screenshot HttpUrl ρ b w)) = live w) /\
  (forall ρ q a w msg,
     parse_query q = Some a ->
     Py.startswith (Params.url a) "http://"
     || Py.startswith (Params.url a) "https://" = true ->
     first_failure ρ = Some msg ->
     handles_fresh w ->
     fst (GET_screenshot ρ q w) =
     {| status := 500;
        body := Json (Detail ("Failed to capture screenshot: " +:+ msg)) |} /\
     fs (snd (GET_screenshot ρ q w)) = fs w /\
     live (snd (GET_screenshot ρ q w)) = live w).
Proof.
  split.
  - intros HttpUrl ρ b r w msg Hb Hv Hfail Hfresh.
    unfold POST_screenshot. rewrite Hb, respond_world.
    destruct (take_screenshot_post_answer ρ r w Hv) as (f & _ & Hans).
    rewrite Hfail in Hans.
    rewrite (respond_fst _ _ _ Hans) by discriminate.
    destruct (take_screenshot_post_world ρ r w Hv) as (f' & ->).
    rewrite capture_storage, Hfail.
    split; [reflexivity|]. split; [reflexivity|].
    now apply capture_keeps_live.
  - intros ρ q a w msg Hq Hu Hfail Hfresh.
    unfold GET_screenshot. rewrite Hq, respond_world.
    pose proof (take_screenshot_get_answer ρ (Params.url a) (Params.width a)
                  (Params.height a) (Params.full_page a) (Params.format a)
                  (Params.quality a) (Params.timeout a) w Hu) as Hans.
    rewrite Hfail in Hans.
    rewrite (respond_fst _ _ _ Hans) by discriminate.
    rewrite (take_screenshot_get_world _ _ _ _ _ _ _ _ _ Hu).
    rewrite capture_storage, Hfail.
    split; [reflexivity|]. split; [reflexivity|].
    now apply capture_keeps_live.
Qed.

Lemma capture_failure_is_500_with_cause_witness :
  fst (GET_screenshot timeout_env (query_of "https://example.com")
         empty_world) =
  {| status := 500;
     body := Json (Detail
       "Failed to capture screenshot: Timeout 30000ms exceeded.") |}
  /\
  fs (snd (POST_screenshot http_only disk_full_env
             (body_of "https://example.com") empty_world)) = fs empty_world.
Proof.
  destruct capture_failure_is_500_with_cause as [Hpost Hget]. split.
  - apply (Hget timeout_env (query_of "https://example.com") _ empty_world
             "Timeout 30000ms exceeded." eq_refl eq_refl eq_refl).
    intros h Hh. simpl in Hh. apply not_elem_of_empty in Hh. destruct Hh.
  - apply (Hpost http_only disk_full_env (body_of "https://example.com") _
             empty_world "ENOSPC: no space left on device"
             eq_refl eq_refl eq_refl).
    intros h Hh. simpl in Hh. apply not_elem_of_empty in Hh. destruct Hh.
Defined.

(** ** A capture is attempted exactly when the request is accepted *)

Lemma log_grows (l : list event) (e : event) (rest : list event) :
  l <> (l ++ e :: rest)%list.
Proof.
  intros H. apply (f_equal length) in H.
  rewrite length_app in H. simpl in H. lia.
Qed.

(** X4: the two screenshot endpoints leave the world exactly as it was if
    and only if they rejected the request: for a body that parses, when
    one of the four checks fails; for a query that parses, when the url
    has neither prefix.  An accepted request always reaches the engine. *)
Theorem world_unchanged_iff_rejected :
  (forall HttpUrl ρ b r w,
     parse_body HttpUrl b = Some r ->
     (snd (POST_screenshot HttpUrl ρ b w) = w <->
      passes_validation r = false)) /\
  (forall ρ q a w,
     parse_query q = Some a ->
     (snd (GET_screenshot ρ q w) = w <->
      Py.startswith (Params.url a) "http://"
      || Py.startswith (Params.url a) "https://" = false)).
Proof.
  split.
  - intros HttpUrl ρ b r w Hb. unfold POST_screenshot.
    rewrite Hb, respond_world. split.
    + intros Hw. destruct (passes_validation r) eqn:Hv; [|reflexivity].
      destruct (take_screenshot_post_world ρ r w Hv) as (f & Hsnd).
      rewrite Hsnd in Hw.
      destruct (capture_launches ρ (ScreenshotRequest.url r)
                  (ScreenshotRequest.width r) (ScreenshotRequest.height r)
                  (ScreenshotRequest.full_page r) f
                  (ScreenshotRequest.quality r) (ScreenshotRequest.timeout r)
                  w) as (rest & Hlog).
      rewrite Hw in Hlog. now apply log_grows in Hlog.
    + intros Hv. destruct (take_screenshot_post_rejects ρ r w Hv) as (d & ->).
      reflexivity.
  - intros ρ q a w Hq. unfold GET_screenshot.
    rewrite Hq, respond_world. split.
    + intros Hw.
      destruct (Py.startswith (Params.url a) "http://"
                || Py.startswith (Params.url a) "https://") eqn:Hu;
        [|reflexivity].
      rewrite (take_screenshot_get_world _ _ _ _ _ _ _ _ _ Hu) in Hw.
      destruct (capture_launches ρ (Params.url a) (Some (Params.width a))
                  (Some (Params.height a)) (Some (Params.full_page a))
                  (normalize_format (Params.format a))
                  (Some (Params.quality a)) (Some (Params.timeout a)) w)
        as (rest & Hlog).
      rewrite Hw in Hlog. now apply log_grows in Hlog.
    + intros Hu. now rewrite take_screenshot_get_rejects.
Qed.

Lemma world_unchanged_iff_rejected_witness :
  snd (POST_screenshot http_only quiet_env gif_body empty_world) = empty_world
  /\
  Py.startswith "ftp://example.com" "http://"
  || Py.startswith "ftp://example.com" "https://" = false.
Proof.
  destruct world_unchanged_iff_rejected as [Hpost Hget]. split.
  - apply (Hpost http_only quiet_env gif_body gif_request empty_world eq_refl).
    reflexivity.
  - apply (Hget quiet_env (query_of "ftp://example.com") ftp_params
             empty_world eq_refl).
    reflexivity.
Defined.

(** ** Browsers *)

Lemma handles_fresh_same (w w' : world) :
  live w' = live w -> spawned w' = spawned w ->
  handles_fresh w -> handles_fresh w'.
Proof. intros Hl Hs H h Hh. rewrite Hl in Hh. rewrite Hs. now apply H. Qed.

Lemma delete_screenshot_engine (filename : string) (w : world) :
  live (snd (delete_screenshot filename w)) = live w /\
  spawned (snd (delete_screenshot filename w)) = spawned w /\
  log (snd (delete_screenshot filename w)) = log w.
Proof.
  unfold delete_screenshot, path_exists, os_remove. seq. cbv zeta.
  destruct (os_stat filename w) as [[c t|]| |] eqn:Hs;
    repeat (rewrite ?Hs; simpl); repeat split.
Qed.

(** X5: no request leaves a browser running.  From a world where live
    handles are below the next handle, each of the five endpoints that
    touch storage or the engine returns a world with the same set of live
    browsers, and the handle discipline still holds, so the property
    holds along any sequence of requests. *)
Theorem no_endpoint_leaks_a_browser (w : world) :
  handles_fresh w ->
  (forall HttpUrl ρ b,
     live (snd (POST_screenshot HttpUrl ρ b w)) = live w /\
     handles_fresh (snd (POST_screenshot HttpUrl ρ b w))) /\
  (forall ρ q,
     live (snd (GET_screenshot ρ q w)) = live w /\
     handles_fresh (snd (GET_screenshot ρ q w))) /\
  (forall filename,
     live (snd (DELETE_screenshot filename w)) = live w /\
     handles_fresh (snd (DELETE_screenshot filename w))) /\
  (forall filename, snd (GET_download filename w) = w) /\
  snd (GET_list w) = w.
Proof.
  intros Hfresh. split; [|split; [|split; [|split]]].
  - intros HttpUrl ρ b. unfold POST_screenshot.
    destruct (parse_body HttpUrl b) as [r|]; [|split; [reflexivity|exact Hfresh]].
    rewrite respond_world. destruct (passes_validation r) eqn:Hv.
    + destruct (take_screenshot_post_world ρ r w Hv) as (f & ->).
      now apply capture_keeps_live.
    + destruct (take_screenshot_post_rejects ρ r w Hv) as (d & ->).
      split; [reflexivity | exact Hfresh].
  - intros ρ q. unfold GET_screenshot.
    destruct (parse_query q) as [a|]; [|split; [reflexivity|exact Hfresh]].
    rewrite respond_world.
    destruct (Py.startswith (Params.url a) "http://"
              || Py.startswith (Params.url a) "https://") eqn:Hu.
    + rewrite (take_screenshot_get_world _ _ _ _ _ _ _ _ _ Hu).
      now apply capture_keeps_live.
    + rewrite take_screenshot_get_rejects by exact Hu.
      split; [reflexivity | exact Hfresh].
  - intros filename. unfold DELETE_screenshot. rewrite respond_world.
    destruct (delete_screenshot_engine filename w) as (Hl & Hs & _).
    split; [exact Hl | now apply (handles_fresh_same w)].
  - intros filename. unfold GET_download. rewrite respond_world.
    unfold download_screenshot, path_exists. seq. cbv zeta.
    destruct (os_stat filename w) as [n| |]; reflexivity.
  - unfold GET_list. rewrite respond_world, list_screenshots_run. reflexivity.
Qed.

Lemma no_endpoint_leaks_a_browser_witness :
  live (snd (GET_screenshot timeout_env (query_of "https://example.com")
               stored_world)) = live stored_world.
Proof.
  destruct (no_endpoint_leaks_a_browser stored_world) as (_ & Hget & _).
  - intros h Hh. simpl in Hh. apply not_elem_of_empty in Hh. destruct Hh.
  - apply Hget.
Defined.

(** ** The order of the engine calls *)

Ltac capture_trace ρ :=
  unfold capture_screenshot, chromium_launch, new_context, new_page,
    set_default_timeout, goto, sleep, page_screenshot, browser_close;
  run; engine_cases ρ; rewrite <- ?app_assoc; simpl.

(** X6: the two-second pause and the screenshot come only after a
    navigation that succeeded.  When the launch, the context, the page,
    the timeout setting or the navigation fails, the capture makes neither
    call; when all five succeed the capture makes exactly these calls in
    this order: launch, new context with the viewport and the fixed user
    agent, new page, set default timeout, goto with wait_until
    "networkidle", sleep 2, screenshot, close. *)
Theorem screenshot_only_after_navigation (ρ : env) (url : string)
    (width height : option Z) (full_page : option bool) (format : string)
    (quality timeout : option Z) (w : world) :
  exists new,
    log (snd (capture_screenshot ρ url width height full_page format quality
                timeout w)) = (log w ++ new)%list /\
    ((exists s msg, s <> StScreenshot /\ engine ρ s = Some msg) ->
     Forall (fun e => after_navigation e = false) new) /\
    ((forall s, s <> StScreenshot -> engine ρ s = None) ->
     exists options,
       new =
       [Launch true ["--no-sandbox"; "--disable-dev-shm-usage"];
        NewContext (spawned w) width height user_agent;
        NewPage (spawned w);
        SetDefaultTimeout (spawned w) timeout;
        Goto (spawned w) url "networkidle";
        Sleep 2;
        Screenshot (spawned w) options;
        Close (spawned w)]).
Proof.
  capture_trace ρ;
    (eexists; split; [reflexivity|]; split;
     [ intros (st & why & Hs & Hm);
       first [ solve [repeat constructor]
             | destruct st; congruence ]
     | intros Hall;
       first [ solve [eexists; reflexivity]
             | exfalso;
               match goal with
               | E : engine ρ ?s = Some _ |- _ =>
                   rewrite Hall in E by discriminate; discriminate E
               end ] ]).
Qed.

Lemma screenshot_only_after_navigation_witness :
  exists new,
    log (snd (capture_screenshot timeout_env "https://example.com" (Some 800)
                (Some 600) (Some false) "png" None (Some 30000) empty_world))
    = new /\
    Forall (fun e => after_navigation e = false) new.
Proof.
  destruct (screenshot_only_after_navigation timeout_env "https://example.com"
              (Some 800) (Some 600) (Some false) "png" None (Some 30000)
              empty_world) as (new & Hlog & Hfail & _).
  exists new. split; [exact Hlog|]. apply Hfail.
  exists StGoto, "Timeout 30000ms exceeded.". split; [discriminate|reflexivity].
Defined.

(** X7: a capture launches one browser and talks to no other: the first
    engine call of a capture is the launch, and every later call that
    names a browser names the one just launched.  After a launch that
    succeeded the next handle is a new one, so the next capture gets a
    browser of its own. *)
Theorem capture_uses_its_own_browser (ρ : env) (url : string)
    (width height : option Z) (full_page : option bool) (format : string)
    (quality timeout : option Z) (w : world) :
  let w' :=
    snd (capture_screenshot ρ url width height full_page format quality
           timeout w) in
  (exists rest,
     log w' =
     (log w ++
      Launch true ["--no-sandbox"; "--disable-dev-shm-usage"] :: rest)%list /\
     Forall (fun e => browser_of e = Some (spawned w) \/ e = Sleep 2) rest) /\
  (engine ρ StLaunch = None -> spawned w' = S (spawned w)) /\
  (forall msg, engine ρ StLaunch = Some msg -> spawned w' = spawned w).
Proof.
  intros w'. subst w'. capture_trace ρ;
    (split; [eexists; split; [reflexivity|]; repeat constructor; auto|]);
    split; try reflexivity; intros; discriminate.
Qed.

Lemma capture_uses_its_own_browser_witness :
  spawned (snd (capture_screenshot quiet_env "https://example.com" (Some 800)
                  (Some 600) (Some false) "png" None (Some 30000)
                  stored_world)) = S (spawned stored_world).
Proof.
  apply (capture_uses_its_own_browser quiet_env "https://example.com"
           (Some 800) (Some 600) (Some false) "png" None (Some 30000)
           stored_world).
  reflexivity.
Defined.

(** ** What the engine is asked to render *)

(** The screenshot call of a capture whose navigation succeeded. *)
Lemma capture_screenshot_call (ρ : env) (url : string)
    (width height : option Z) (full_page : option bool) (format : string)
    (quality timeout : option Z) (w : world) :
  (forall s, s <> StScreenshot -> engine ρ s = None) ->
  Screenshot (spawned w)
    (if String.eqb format "jpeg"
     then {| opt_path := generated_filename ρ format;
             opt_full_page := full_page;
             opt_type := "jpeg"; opt_quality := Some quality |}
     else {| opt_path := generated_filename ρ format;
             opt_full_page := full_page;
             opt_type := "png"; opt_quality := None |})
  ∈ log (snd (capture_screenshot ρ url width height full_page format quality
                timeout w)).
Proof.
  intros Hall.
  unfold capture_screenshot, chromium_launch, new_context, new_page,
    set_default_timeout, goto, sleep, page_screenshot, browser_close,
    generated_filename.
  run.
  rewrite (Hall StLaunch), (Hall StNewContext), (Hall StNewPage),
    (Hall StSetDefaultTimeout), (Hall StGoto) by discriminate.
  simpl. destruct (engine ρ StScreenshot); simpl;
    rewrite !elem_of_app, !list_elem_of_singleton; auto 10.
Qed.

Lemma generated_filename_named (ρ : env) (format : string) :
  (format = "png" -> named_for "png" (generated_filename ρ format)) /\
  (format <> "png" -> named_for "jpg" (generated_filename ρ format)).
Proof.
  unfold generated_filename.
  split; intros Hf; exists (Uuid.uuid4_hex (urandom ρ));
    (split; [apply uuid4_hex_length|]; split; [apply uuid4_hex_all_hex|]).
  - now subst format.
  - destruct (String.eqb_spec format "png"); [contradiction | reflexivity].
Qed.

Lemma take_screenshot_post_world_of (ρ : env) (r : ScreenshotRequest.t)
    (f : string) (w : world) :
  passes_validation r = true ->
  ScreenshotRequest.format r = Some f ->
  snd (take_screenshot_post ρ r w) =
  snd (capture_screenshot ρ
         (ScreenshotRequest.url r) (ScreenshotRequest.width r)
         (ScreenshotRequest.height r) (ScreenshotRequest.full_page r)
         (normalize_format f)
         (ScreenshotRequest.quality r) (ScreenshotRequest.timeout r) w).
Proof.
  intros Hv Hf.
  destruct (take_screenshot_post_accepts ρ r w Hv) as (f' & Hf' & ->).
  rewrite Hf in Hf'. injection Hf' as <-. seq.
  destruct (capture_screenshot _ _ _ _ _ _ _ _ w) as [[fn|e] w']; reflexivity.
Qed.

(** X8: on both endpoints the image type asked of the engine matches the
    extension of the file it writes to, and the quality is handed over
    exactly for jpeg.  For an accepted request whose navigation succeeds,
    the screenshot call carries the request's full_page flag and either
    type "png", no quality and a path ending in .png (format png), or type
    "jpeg", the request's quality and a path ending in .jpg (format jpeg
    or jpg). *)
Theorem engine_type_matches_extension :
  (forall HttpUrl ρ b r f w,
     parse_body HttpUrl b = Some r ->
     passes_validation r = true ->
     ScreenshotRequest.format r = Some f ->
     (forall s, s <> StScreenshot -> engine ρ s = None) ->
     exists options,
       Screenshot (spawned w) options
       ∈ log (snd (POST_screenshot HttpUrl ρ b w)) /\
       opt_full_page options = ScreenshotRequest.full_page r /\
       (f = "png" /\ opt_type options = "png" /\
        opt_quality options = None /\
        Py.endswith (opt_path options) ".png" = true
        \/
        f <> "png" /\ opt_type options = "jpeg" /\
        opt_quality options = Some (ScreenshotRequest.quality r) /\
        Py.endswith (opt_path options) ".jpg" = true)) /\
  (forall ρ q a w,
     parse_query q = Some a ->
     Py.startswith (Params.url a) "http://"
     || Py.startswith (Params.url a) "https://" = true ->
     (forall s, s <> StScreenshot -> engine ρ s = None) ->
     exists options,
       Screenshot (spawned w) options ∈ log (snd (GET_screenshot ρ q w)) /\
       opt_full_page options = Some (Params.full_page a) /\
       (Params.format a = "png" /\ opt_type options = "png" /\
        opt_quality options = None /\
        Py.endswith (opt_path options) ".png" = true
        \/
        Params.format a <> "png" /\ opt_type options = "jpeg" /\
        opt_quality options = Some (Some (Params.quality a)) /\
        Py.endswith (opt_path options) ".jpg" = true)).
Proof.
  split.
  - intros HttpUrl ρ b r f w Hb Hv Hf Hall.
    unfold POST_screenshot. rewrite Hb, respond_world.
    rewrite (take_screenshot_post_world_of ρ r f w Hv Hf).
    eexists. split; [apply capture_screenshot_call, Hall|].
    destruct (generated_filename_named ρ (normalize_format f)) as [Hpng Hjpg].
    unfold normalize_format in *.
    destruct (String.eqb_spec f "png") as [->|Hne]; simpl.
    + split; [reflexivity|]. left.
      split; [reflexivity|]. split; [reflexivity|]. split; [reflexivity|].
      apply (named_for_endswith "png"). now apply Hpng.
    + split; [reflexivity|]. right.
      split; [exact Hne|]. split; [reflexivity|]. split; [reflexivity|].
      apply (named_for_endswith "jpg"). apply Hjpg. discriminate.
  - intros ρ q a w Hq Hu Hall.
    unfold GET_screenshot. rewrite Hq, respond_world.
    rewrite (take_screenshot_get_world _ _ _ _ _ _ _ _ _ Hu).
    eexists. split; [apply capture_screenshot_call, Hall|].
    destruct (generated_filename_named ρ (normalize_format (Params.format a)))
      as [Hpng Hjpg].
    unfold normalize_format in *.
    destruct (String.eqb_spec (Params.format a) "png") as [->|Hne]; simpl.
    + split; [reflexivity|]. left.
      split; [reflexivity|]. split; [reflexivity|]. split; [reflexivity|].
      apply (named_for_endswith "png"). now apply Hpng.
    + split; [reflexivity|]. right.
      split; [exact Hne|]. split; [reflexivity|]. split; [reflexivity|].
      apply (named_for_endswith "jpg"). apply Hjpg. discriminate.
Qed.

Lemma engine_type_matches_extension_witness :
  exists options,
    Screenshot 0 options
    ∈ log (snd (GET_screenshot disk_full_env
                  (query_of "https://example.com") empty_world)) /\
    opt_full_page options = Some false.
Proof.
  destruct engine_type_matches_extension as [_ Hget].
  destruct (Hget disk_full_env (query_of "https://example.com") _ empty_world
              eq_refl eq_refl) as (o & Hin & Hfp & _).
  - intros s Hs. destruct s; try reflexivity. now destruct Hs.
  - exists o. split; [exact Hin | exact Hfp].
Defined.

(** X9: [capture_screenshot] itself does not normalise.  Called with a
    format that is neither "png" nor "jpeg" (its two callers never do
    that), it names the file .jpg and yet asks the engine for type "png"
    with no quality. *)
Theorem capture_unnormalised_format (ρ : env) (url : string)
    (width height : option Z) (full_page : option bool) (format : string)
    (quality timeout : option Z) (w : world) :
  format <> "png" -> format <> "jpeg" ->
  (forall s, s <> StScreenshot -> engine ρ s = None) ->
  exists options,
    Screenshot (spawned w) options
    ∈ log (snd (capture_screenshot ρ url width height full_page format
                  quality timeout w)) /\
    opt_type options = "png" /\
    opt_quality options = None /\
    Py.endswith (opt_path options) ".jpg" = true /\
    Py.endswith (opt_path options) ".png" = false.
Proof.
  intros Hpng Hjpeg Hall.
  eexists. split; [apply capture_screenshot_call, Hall|].
  destruct (String.eqb_spec format "jpeg"); [contradiction|]. simpl.
  destruct (generated_filename_named ρ format) as [_ Hjpg].
  split; [reflexivity|]. split; [reflexivity|]. split.
  - apply (named_for_endswith "jpg"). now apply Hjpg.
  - apply (named_for_not_endswith "jpg" "png"); [now apply Hjpg | reflexivity |
      discriminate].
Qed.

Lemma capture_unnormalised_format_witness :
  exists options,
    Screenshot 0 options
    ∈ log (snd (capture_screenshot quiet_env "https://example.com" (Some 800)
                  (Some 600) (Some false) "jpg" (Some 90) (Some 30000)
                  empty_world)) /\
    opt_type options = "png".
Proof.
  destruct (capture_unnormalised_format quiet_env "https://example.com"
              (Some 800) (Some 600) (Some false) "jpg" (Some 90) (Some 30000)
              empty_world) as (o & Hin & Hty & _).
  - discriminate.
  - discriminate.
  - reflexivity.
  - exists o. split; [exact Hin | exact Hty].
Defined.

(** ** Quality and null fields on the body endpoint *)

(** X10: the body endpoint looks at the quality only when the format
    resolves to jpeg.  A body with format "png" and dimensions in range is
    accepted whatever its quality, out of range or null: the capture
    starts, and the answer is 200 unless an engine call fails.  The query
    endpoint refuses an out-of-range quality with 422 even when the
    format is png. *)
Theorem png_ignores_quality :
  (forall HttpUrl ρ b r w,
     parse_body HttpUrl b = Some r ->
     ScreenshotRequest.format r = Some "png" ->
     in_range 100 3840 (ScreenshotRequest.width r) = true ->
     in_range 100 2160 (ScreenshotRequest.height r) = true ->
     status (fst (POST_screenshot HttpUrl ρ b w)) =
     match first_failure ρ with None => 200 | Some _ => 500 end /\
     exists rest,
       log (snd (POST_screenshot HttpUrl ρ b w)) =
       (log w ++
        Launch true ["--no-sandbox"; "--disable-dev-shm-usage"] :: rest)%list)
  /\
  (forall ρ q w,
     Query.format q = Some "png" ->
     out_of_range 1 100 (Query.quality q) ->
     GET_screenshot ρ q w =
     ({| status := 422; body := ValidationErrors |}, w)).
Proof.
  split.
  - intros HttpUrl ρ b r w Hb Hf Hw Hh.
    assert (Hv : passes_validation r = true).
    { unfold passes_validation. now rewrite Hf, Hw, Hh. }
    unfold POST_screenshot. rewrite Hb, respond_world. split.
    + destruct (take_screenshot_post_answer ρ r w Hv) as (f & _ & Hans).
      rewrite (respond_fst _ _ _ Hans);
        destruct (first_failure ρ); try reflexivity; discriminate.
    + rewrite (take_screenshot_post_world_of ρ r "png" w Hv Hf).
      apply capture_launches.
  - intros ρ q w _ Hq. unfold GET_screenshot.
    rewrite parse_query_rejects; [reflexivity|]. auto.
Qed.

Lemma png_ignores_quality_witness :
  status (fst (POST_screenshot http_only quiet_env
                 {| Body.url := Given "https://example.com";
                    Body.width := Omitted; Body.height := Omitted;
                    Body.full_page := Omitted; Body.format := Given "png";
                    Body.quality := Given 150; Body.timeout := Omitted |}
                 empty_world)) = 200
  /\
  GET_screenshot quiet_env
    {| Query.url := Some "https://example.com"; Query.width := None;
       Query.height := None; Query.full_page := None;
       Query.format := Some "png"; Query.quality := Some 150;
       Query.timeout := None |} empty_world
  = ({| status := 422; body := ValidationErrors |}, empty_world).
Proof.
  destruct png_ignores_quality as [Hpost Hget]. split.
  - refine (proj1 (Hpost http_only quiet_env
                     {| Body.url := Given "https://example.com";
                        Body.width := Omitted; Body.height := Omitted;
                        Body.full_page := Omitted; Body.format := Given "png";
                        Body.quality := Given 150; Body.timeout := Omitted |}
                     _ empty_world eq_refl eq_refl eq_refl eq_refl)).
  - apply Hget; [reflexivity|]. exists 150. split; [reflexivity | lia].
Defined.

(** The body handler when the format and quality checks pass and the
    width is [None]. *)
Lemma take_screenshot_post_null_width (ρ : env) (r : ScreenshotRequest.t)
    (w : world) :
  Py.contains ["png"; "jpeg"; "jpg"] (ScreenshotRequest.format r) = true ->
  Py.eqs (ScreenshotRequest.format r) "png"
  || in_range 1 100 (ScreenshotRequest.quality r) = true ->
  ScreenshotRequest.width r = None ->
  take_screenshot_post ρ r w =
  (Raise (HTTPException 500
            ("Failed to capture screenshot: " +:+ none_lt_int)), w).
Proof.
  destruct r as [u wd ht fp f q t]. simpl. intros Hf Hq ->.
  destruct f as [s|]; [|discriminate Hf].
  unfold take_screenshot_post.
  cbn [ScreenshotRequest.format ScreenshotRequest.quality
       ScreenshotRequest.width ScreenshotRequest.height
       ScreenshotRequest.url ScreenshotRequest.full_page
       ScreenshotRequest.timeout Py.eqs] in *.
  seq. rewrite Hf. cbn [negb].
  destruct (String.eqb s "png") eqn:Hp; simpl in Hq; simpl.
  - reflexivity.
  - rewrite range_check. destruct q; [|discriminate]. rewrite Hq. simpl.
    reflexivity.
Qed.

Lemma take_screenshot_post_null_height (ρ : env) (r : ScreenshotRequest.t)
    (w : world) :
  Py.contains ["png"; "jpeg"; "jpg"] (ScreenshotRequest.format r) = true ->
  Py.eqs (ScreenshotRequest.format r) "png"
  || in_range 1 100 (ScreenshotRequest.quality r) = true ->
  in_range 100 3840 (ScreenshotRequest.width r) = true ->
  ScreenshotRequest.height r = None ->
  take_screenshot_post ρ r w =
  (Raise (HTTPException 500
            ("Failed to capture screenshot: " +:+ none_lt_int)), w).
Proof.
  destruct r as [u wd ht fp f q t]. simpl. intros Hf Hq Hw ->.
  destruct f as [s|]; [|discriminate Hf].
  unfold take_screenshot_post.
  cbn [ScreenshotRequest.format ScreenshotRequest.quality
       ScreenshotRequest.width ScreenshotRequest.height
       ScreenshotRequest.url ScreenshotRequest.full_page
       ScreenshotRequest.timeout Py.eqs] in *.
  seq. rewrite Hf. cbn [negb].
  destruct (String.eqb s "png") eqn:Hp; simpl in Hq; simpl.
  - rewrite range_check. destruct wd; [|discriminate]. rewrite Hw. simpl.
    reflexivity.
  - rewrite range_check. destruct q; [|discriminate]. rewrite Hq. simpl.
    rewrite range_check. destruct wd; [|discriminate]. rewrite Hw. simpl.
    reflexivity.
Qed.

(** X11: the fields of the body are [Optional], so a body may carry an
    explicit null.  With a format and quality that pass their checks, a
    null width (or, the width being in range, a null height) makes the
    comparison of the range check raise a [TypeError]; the endpoint
    answers 500 with Python's message for it, and the world is
    unchanged. *)
Theorem null_dimension_is_500 (HttpUrl : string -> option string) (ρ : env)
    (b : Body.t) (r : ScreenshotRequest.t) (w : world) :
  parse_body HttpUrl b = Some r ->
  Py.contains ["png"; "jpeg"; "jpg"] (ScreenshotRequest.format r) = true ->
  Py.eqs (ScreenshotRequest.format r) "png"
  || in_range 1 100 (ScreenshotRequest.quality r) = true ->
  Body.width b = Null \/
  in_range 100 3840 (ScreenshotRequest.width r) = true /\ Body.height b = Null ->
  POST_screenshot HttpUrl ρ b w =
  ({| status := 500;
      body := Json (Detail
        ("Failed to capture screenshot: " +:+ none_lt_int)) |}, w).
Proof.
  intros Hb Hf Hq Hnull. unfold POST_screenshot. rewrite Hb.
  apply respond_raise.
  unfold parse_body in Hb.
  destruct (Body.url b) as [| |u]; try discriminate.
  destruct (HttpUrl u) as [u'|]; simpl in Hb; [|discriminate].
  injection Hb as <-. simpl in *.
  destruct Hnull as [Hw|[Hw Hh]].
  - apply take_screenshot_post_null_width; simpl; auto. now rewrite Hw.
  - apply take_screenshot_post_null_height; simpl; auto. now rewrite Hh.
Qed.

Lemma null_dimension_is_500_witness :
  POST_screenshot http_only quiet_env
    {| Body.url := Given "https://example.com"; Body.width := Null;
       Body.height := Omitted; Body.full_page := Omitted;
       Body.format := Omitted; Body.quality := Omitted;
       Body.timeout := Omitted |} empty_world
  = ({| status := 500;
        body := Json (Detail
          ("Failed to capture screenshot: " +:+ none_lt_int)) |},
     empty_world).
Proof.
  apply (null_dimension_is_500 http_only quiet_env _
           {| ScreenshotRequest.url := "https://example.com";
              ScreenshotRequest.width := None;
              ScreenshotRequest.height := Some 1080;
              ScreenshotRequest.full_page := Some false;
              ScreenshotRequest.format := Some "png";
              ScreenshotRequest.quality := Some 80;
              ScreenshotRequest.timeout := Some 30000 |} empty_world);
    [reflexivity | reflexivity | reflexivity | left; reflexivity].
Defined.

(** ** From a capture to a download *)

Lemma download_answer (filename : string) (w : world) :
  GET_download filename w =
  (match os_stat filename w with
   | NoEntry => not_found
   | Entry (File c _) =>
       {| status := 200;
          body := FileBytes
                    (if Py.endswith filename ".png"
                     then "image/png" else "image/jpeg")
                    filename c |}
   | Entry Directory | NameTooLong =>
       {| status := 500; body := InternalServerError |}
   end, w).
Proof.
  unfold GET_download, respond, download_screenshot, path_exists, send_file.
  seq. cbv zeta.
  destruct (os_stat filename w) as [[c t|]| |] eqn:Hs;
    repeat (rewrite ?Hs; simpl); reflexivity.
Qed.

(** What is found at a name depends on the entry under that name only. *)
Lemma os_stat_same (filename : string) (w w' : world) :
  fs w' !! filename = fs w !! filename ->
  os_stat filename w' = os_stat filename w.
Proof. intros H. unfold os_stat. now rewrite H. Qed.

Lemma generated_filename_endswith_png (ρ : env) (f : string) :
  Py.endswith (generated_filename ρ (normalize_format f)) ".png" =
  String.eqb f "png".
Proof.
  destruct (generated_filename_named ρ (normalize_format f)) as [Hpng Hjpg].
  destruct (String.eqb_spec f "png") as [E|Hne].
  - apply (named_for_endswith "png"). apply Hpng. now rewrite E.
  - apply (named_for_not_endswith "jpg" "png"); [|reflexivity|discriminate].
    apply Hjpg. intros E. exact (Hne (proj1 (normalize_format_png f) E)).
Qed.

(** X12: a screenshot that was taken can be downloaded.  When a request
    is accepted and no engine call fails, the endpoint answers 200 with a
    file name, and GET /download of that name in the resulting world
    answers 200 with the bytes the engine rendered, as image/png when the
    requested format was png and as image/jpeg when it was jpeg or jpg.
    The query endpoint's download_url is /download/ followed by that
    name. *)
Theorem captured_file_downloads :
  (forall HttpUrl ρ b r f w,
     parse_body HttpUrl b = Some r ->
     passes_validation r = true ->
     ScreenshotRequest.format r = Some f ->
     first_failure ρ = None ->
     exists fn,
       fst (POST_screenshot HttpUrl ρ b w) =
       {| status := 200;
          body := Json (ScreenshotResponse true fn
                          "Screenshot captured successfully") |} /\
       GET_download fn (snd (POST_screenshot HttpUrl ρ b w)) =
       ({| status := 200;
           body := FileBytes
                     (if String.eqb f "png" then "image/png" else "image/jpeg")
                     fn (pixels ρ) |},
        snd (POST_screenshot HttpUrl ρ b w))) /\
  (forall ρ q a w,
     parse_query q = Some a ->
     Py.startswith (Params.url a) "http://"
     || Py.startswith (Params.url a) "https://" = true ->
     first_failure ρ = None ->
     exists fn,
       fst (GET_screenshot ρ q w) =
       {| status := 200;
          body := Json (ScreenshotJSON true fn
                          "Screenshot captured successfully"
                          ("/download/" +:+ fn)) |} /\
       GET_download fn (snd (GET_screenshot ρ q w)) =
       ({| status := 200;
           body := FileBytes
                     (if String.eqb (Params.format a) "png"
                      then "image/png" else "image/jpeg")
                     fn (pixels ρ) |},
        snd (GET_screenshot ρ q w))).
Proof.
  split.
  - intros HttpUrl ρ b r f w Hb Hv Hf Hok.
    exists (generated_filename ρ (normalize_format f)).
    unfold POST_screenshot. rewrite Hb, respond_world. split.
    + destruct (take_screenshot_post_answer ρ r w Hv) as (f' & Hf' & Hans).
      rewrite Hf in Hf'. injection Hf' as <-. rewrite Hok in Hans.
      now rewrite (respond_fst _ _ _ Hans) by discriminate.
    + rewrite download_answer.
      rewrite (os_stat_entry _ _ (File (pixels ρ) (clock ρ))).
      * now rewrite generated_filename_endswith_png.
      * rewrite (take_screenshot_post_world_of ρ r f w Hv Hf).
        rewrite capture_storage, Hok. apply lookup_insert_eq.
  - intros ρ q a w Hq Hu Hok.
    exists (generated_filename ρ (normalize_format (Params.format a))).
    unfold GET_screenshot. rewrite Hq, respond_world. split.
    + pose proof (take_screenshot_get_answer ρ (Params.url a)
                    (Params.width a) (Params.height a) (Params.full_page a)
                    (Params.format a) (Params.quality a) (Params.timeout a)
                    w Hu) as Hans.
      rewrite Hok in Hans.
      now rewrite (respond_fst _ _ _ Hans) by discriminate.
    + rewrite download_answer.
      rewrite (os_stat_entry _ _ (File (pixels ρ) (clock ρ))).
      * now rewrite generated_filename_endswith_png.
      * rewrite (take_screenshot_get_world _ _ _ _ _ _ _ _ _ Hu).
        rewrite capture_storage, Hok. apply lookup_insert_eq.
Qed.

Lemma captured_file_downloads_witness :
  exists fn,
    fst (POST_screenshot http_only quiet_env (body_of "https://example.com")
           empty_world) =
    {| status := 200;
       body := Json (ScreenshotResponse true fn
                       "Screenshot captured successfully") |} /\
    fst (GET_download fn
           (snd (POST_screenshot http_only quiet_env
                   (body_of "https://example.com") empty_world))) =
    {| status := 200;
       body := FileBytes "image/png" fn
                 [Byte.x89; Byte.x50; Byte.x4e; Byte.x47] |}.
Proof.
  destruct captured_file_downloads as [Hpost _].
  destruct (Hpost http_only quiet_env (body_of "https://example.com") _ "png"
              empty_world eq_refl eq_refl eq_refl eq_refl)
    as (fn & Hans & Hdl).
  exists fn. split; [exact Hans|]. now rewrite Hdl.
Defined.

(** ** Listings before and after a change of storage *)

Lemma prefix_append (a b : string) : String.prefix a (a +:+ b) = true.
Proof.
  induction a as [|c a IH]; [now destruct b|].
  rewrite append_cons. simpl. now destruct (ascii_dec c c).
Qed.

Lemma generated_filename_prefix (ρ : env) (format : string) :
  Py.startswith (generated_filename ρ format) "screenshot_" = true.
Proof. apply prefix_append. Qed.

Lemma GET_list_answer (w : world) :
  GET_list w =
  ({| status := 200;
      body := Json (Listing true (length (listed w)) (listed w)) |}, w).
Proof. unfold GET_list, respond. now rewrite list_screenshots_run. Qed.

Lemma elem_of_listed (w : world) (it : item) :
  it ∈ listed w <->
  exists c,
    fs w !! filename it = Some (File c (created it)) /\
    size it = st_size c /\
    Py.startswith (filename it) "screenshot_" = true.
Proof.
  unfold listed. rewrite list_elem_of_omap. split.
  - intros ([name n] & Hin & Hit).
    apply elem_of_filter_bool in Hin as [Hin Hp].
    apply elem_of_map_to_list in Hin.
    destruct n as [c t|]; unfold item_of in Hit; simpl in Hit; [|discriminate].
    injection Hit as <-. simpl in *. eauto.
  - intros (c & Hfs & Hsz & Hp).
    exists (filename it, File c (created it)). split.
    + apply elem_of_filter_bool. split; [|exact Hp].
      now apply elem_of_map_to_list.
    + unfold item_of. simpl. rewrite <- Hsz. now destruct it.
Qed.

(** The listing as one pass over the directory. *)
Lemma listed_one_pass (l : list (string * node)) :
  omap item_of (List.filter (fun e => Py.startswith e.1 "screenshot_") l) =
  omap (fun e => if Py.startswith e.1 "screenshot_" then item_of e else None)
    l.
Proof.
  induction l as [|e l IH]; [reflexivity|].
  cbn [List.filter]. destruct (Py.startswith e.1 "screenshot_") eqn:E;
    cbn [omap list_omap]; rewrite E, IH; reflexivity.
Qed.

Lemma listed_length_insert (w w' : world) (name : string)
    (c : list Byte.byte) (t : Z) :
  fs w' = <[name := File c t]> (fs w) ->
  fs w !! name = None ->
  Py.startswith name "screenshot_" = true ->
  length (listed w') = S (length (listed w)).
Proof.
  intros Hfs Hnone Hp. unfold listed. rewrite Hfs, !listed_one_pass.
  rewrite (Permutation_length
             (omap_Permutation _ _ _
                (map_to_list_insert (fs w) name (File c t) Hnone))).
  simpl. now rewrite Hp.
Qed.

Lemma listed_length_delete (w w' : world) (name : string)
    (c : list Byte.byte) (t : Z) :
  fs w' = delete name (fs w) ->
  fs w !! name = Some (File c t) ->
  Py.startswith name "screenshot_" = true ->
  length (listed w) = S (length (listed w')).
Proof.
  intros Hfs Hsome Hp. unfold listed. rewrite Hfs, !listed_one_pass.
  rewrite <- (Permutation_length
                (omap_Permutation _ _ _
                   (map_to_list_delete (fs w) name (File c t) Hsome))).
  simpl. now rewrite Hp.
Qed.

(** X13: a screenshot that was taken shows up in the listing.  After a
    capture in which no engine call failed, GET /list holds an entry with
    the generated name, the size of the rendered image and the time it
    was written; the entries under other names are the ones listed
    before; and when the name was not yet in storage the count has grown
    by exactly one. *)
Theorem captured_file_is_listed (ρ : env) (url : string)
    (width height : option Z) (full_page : option bool) (format : string)
    (quality timeout : option Z) (w : world) :
  first_failure ρ = None ->
  let w' :=
    snd (capture_screenshot ρ url width height full_page format quality
           timeout w) in
  GET_list w' =
  ({| status := 200;
      body := Json (Listing true (length (listed w')) (listed w')) |}, w') /\
  {| filename := generated_filename ρ format;
     size := st_size (pixels ρ); created := clock ρ |} ∈ listed w' /\
  (forall it,
     filename it <> generated_filename ρ format ->
     (it ∈ listed w' <-> it ∈ listed w)) /\
  (fs w !! generated_filename ρ format = None ->
   length (listed w') = S (length (listed w))).
Proof.
  intros Hok w'.
  assert (Hfs : fs w' =
                <[generated_filename ρ format := File (pixels ρ) (clock ρ)]>
                  (fs w)).
  { subst w'. now rewrite capture_storage, Hok. }
  split; [apply GET_list_answer|]. split; [|split].
  - apply elem_of_listed. exists (pixels ρ).
    cbn [filename size created].
    rewrite Hfs, lookup_insert_eq.
    split; [reflexivity|]. split; [reflexivity|].
    exact (generated_filename_prefix ρ format).
  - intros it Hne. rewrite !elem_of_listed, Hfs.
    now rewrite lookup_insert_ne by congruence.
  - intros Hnone.
    exact (listed_length_insert w w' _ _ _ Hfs Hnone
             (generated_filename_prefix ρ format)).
Qed.

Lemma captured_file_is_listed_witness :
  length (listed (snd (capture_screenshot quiet_env "https://example.com"
                         (Some 800) (Some 600) (Some false) "jpeg" (Some 90)
                         (Some 30000) stored_world)))
  = S (length (listed stored_world)).
Proof.
  apply (captured_file_is_listed quiet_env "https://example.com" (Some 800)
           (Some 600) (Some false) "jpeg" (Some 90) (Some 30000)
           stored_world eq_refl).
  vm_compute. reflexivity.
Defined.

(** X14: DELETE /screenshot/{filename} removes the named file and nothing
    else.  After a stored regular file was deleted, every other name
    downloads exactly as before, the listing has lost the entry of that
    name and kept all others, and when the name carries the screenshot
    prefix the count has dropped by exactly one. *)
Theorem delete_removes_only_the_named_file (filename0 : string) (w : world)
    (c : list Byte.byte) (t : Z) :
  fs w !! filename0 = Some (File c t) ->
  let w' := snd (DELETE_screenshot filename0 w) in
  (forall other,
     other <> filename0 ->
     GET_download other w' = (fst (GET_download other w), w')) /\
  (forall it,
     it ∈ listed w' <-> it ∈ listed w /\ filename it <> filename0) /\
  (Py.startswith filename0 "screenshot_" = true ->
   length (listed w) = S (length (listed w'))).
Proof.
  intros H w'.
  assert (Hfs : fs w' = delete filename0 (fs w)).
  { subst w'. unfold DELETE_screenshot. rewrite respond_world.
    unfold delete_screenshot. seq. rewrite (exists_present _ _ _ H). simpl.
    unfold os_remove. now rewrite (os_stat_entry _ _ _ H). }
  split; [|split].
  - intros other Hne. rewrite !download_answer. simpl.
    rewrite (os_stat_same other w w'); [reflexivity|].
    now rewrite Hfs, lookup_delete_ne by congruence.
  - intros it. rewrite !elem_of_listed, Hfs. split.
    + intros (c' & Hl & Hrest).
      destruct (decide (filename it = filename0)) as [E|Hne].
      * rewrite E, lookup_delete_eq in Hl. discriminate.
      * rewrite lookup_delete_ne in Hl by congruence. eauto.
    + intros [(c' & Hl & Hrest) Hne].
      exists c'. now rewrite lookup_delete_ne by congruence.
  - intros Hp. exact (listed_length_delete w w' _ _ _ Hfs H Hp).
Qed.

Lemma delete_removes_only_the_named_file_witness :
  length (listed stored_world) =
  S (length (listed (snd (DELETE_screenshot "screenshot_a.png"
                            stored_world)))).
Proof.
  apply (delete_removes_only_the_named_file "screenshot_a.png" stored_world
           [Byte.x89; Byte.x50] 11).
  - vm_compute. reflexivity.
  - reflexivity.
Defined.

(** X15: a sub-directory of the storage directory passes the existence
    check of the delete endpoint, but [os.remove] refuses a directory:
    the endpoint answers 500 and nothing is removed. *)
Theorem delete_of_directory_is_500 (filename0 : string) (w : world) :
  fs w !! filename0 = Some Directory ->
  status (fst (DELETE_screenshot filename0 w)) = 500 /\
  snd (DELETE_screenshot filename0 w) = w.
Proof.
  intros H. unfold DELETE_screenshot, respond, delete_screenshot. seq.
  rewrite (exists_present _ _ _ H). simpl.
  unfold os_remove. rewrite (os_stat_entry _ _ _ H).
  split; reflexivity.
Qed.

Lemma delete_of_directory_is_500_witness :
  status (fst (DELETE_screenshot "screenshot_old" stored_world)) = 500 /\
  snd (DELETE_screenshot "screenshot_old" stored_world) = stored_world.
Proof.
  apply delete_of_directory_is_500. vm_compute. reflexivity.
Defined.

(** X16: the bounds of the query endpoint are inclusive and nothing else
    is checked before the handler.  A query with a url, every number left
    out or within its bounds (100 and 3840, 100 and 2160, 1 and 100, 5000
    and 120000 included) and a format left out or one of png, jpeg, jpg
    reaches [take_screenshot_get] with the values given and the defaults
    for the rest. *)
Theorem query_within_bounds_reaches_handler (ρ : env) (q : Query.t)
    (u : string) (w : world) :
  Query.url q = Some u ->
  absent_or_within 100 3840 (Query.width q) ->
  absent_or_within 100 2160 (Query.height q) ->
  absent_or_within 1 100 (Query.quality q) ->
  absent_or_within 5000 120000 (Query.timeout q) ->
  match Query.format q with Some f => format_regex f = true | None => True end ->
  GET_screenshot ρ q w =
  respond
    (take_screenshot_get ρ u
       (default_to 1920 (Query.width q)) (default_to 1080 (Query.height q))
       (default_to false (Query.full_page q))
       (default_to "png" (Query.format q))
       (default_to 80 (Query.quality q))
       (default_to 30000 (Query.timeout q))) w.
Proof.
  intros Hu Hw Hh Hq Ht Hf. unfold GET_screenshot.
  now rewrite (parse_query_accepts q u Hu Hw Hh Hq Ht Hf).
Qed.

Lemma query_within_bounds_reaches_handler_witness :
  GET_screenshot quiet_env edge_query empty_world =
  respond
    (take_screenshot_get quiet_env "https://example.com"
       (default_to 1920 (Query.width edge_query))
       (default_to 1080 (Query.height edge_query))
       (default_to false (Query.full_page edge_query))
       (default_to "png" (Query.format edge_query))
       (default_to 80 (Query.quality edge_query))
       (default_to 30000 (Query.timeout edge_query))) empty_world.
Proof.
  apply (query_within_bounds_reaches_handler quiet_env edge_query
           "https://example.com" empty_world).
  - reflexivity.
  - unfold edge_query, absent_or_within. simpl. lia.
  - unfold edge_query, absent_or_within. simpl. lia.
  - unfold edge_query, absent_or_within. simpl. lia.
  - unfold edge_query, absent_or_within. simpl. lia.
  - reflexivity.
Defined.

(** ** Two captures *)

Lemma append_inj_length (a a' b b' : string) :
  String.length a = String.length a' ->
  a +:+ b = a' +:+ b' -> a = a' /\ b = b'.
Proof.
  revert a'. induction a as [|c a IH]; intros [|c' a'] Hlen H;
    try discriminate Hlen.
  - split; [reflexivity | exact H].
  - rewrite !append_cons in H. injection H as -> H.
    simpl in Hlen. injection Hlen as Hlen.
    destruct (IH a' Hlen H) as [-> ->]. split; reflexivity.
Qed.

Lemma generated_filename_inj (ρ1 ρ2 : env) (f1 f2 : string) :
  generated_filename ρ1 f1 = generated_filename ρ2 f2 ->
  Uuid.uuid4_hex (urandom ρ1) = Uuid.uuid4_hex (urandom ρ2).
Proof.
  unfold generated_filename. intros H.
  apply append_inj_length in H as [_ H]; [|reflexivity].
  apply append_inj_length in H as [H _]; [exact H|].
  now rewrite !uuid4_hex_length.
Qed.

(** X17: captures with different uuids do not overwrite each other.  When
    two captures in a row succeed and the hexadecimal uuids they drew
    differ, their file names differ, and after the second capture storage
    holds both images, each under its own name. *)
Theorem two_captures_keep_both_files (ρ1 ρ2 : env) (url1 url2 : string)
    (width1 height1 width2 height2 : option Z)
    (full_page1 full_page2 : option bool) (format1 format2 : string)
    (quality1 timeout1 quality2 timeout2 : option Z) (w : world) :
  Uuid.uuid4_hex (urandom ρ1) <> Uuid.uuid4_hex (urandom ρ2) ->
  first_failure ρ1 = None ->
  first_failure ρ2 = None ->
  let w1 :=
    snd (capture_screenshot ρ1 url1 width1 height1 full_page1 format1
           quality1 timeout1 w) in
  let w2 :=
    snd (capture_screenshot ρ2 url2 width2 height2 full_page2 format2
           quality2 timeout2 w1) in
  generated_filename ρ1 format1 <> generated_filename ρ2 format2 /\
  fs w2 !! generated_filename ρ1 format1
  = Some (File (pixels ρ1) (clock ρ1)) /\
  fs w2 !! generated_filename ρ2 format2
  = Some (File (pixels ρ2) (clock ρ2)).
Proof.
  intros Hne Hok1 Hok2 w1 w2.
  assert (Hnames : generated_filename ρ1 format1
                   <> generated_filename ρ2 format2).
  { intros E. apply Hne. exact (generated_filename_inj _ _ _ _ E). }
  split; [exact Hnames|].
  subst w2 w1. rewrite !capture_storage, Hok1, Hok2. split.
  - rewrite lookup_insert_ne by congruence. apply lookup_insert_eq.
  - apply lookup_insert_eq.
Qed.

Lemma two_captures_keep_both_files_witness :
  generated_filename quiet_env "png" <> generated_filename other_env "png".
Proof.
  apply (two_captures_keep_both_files quiet_env other_env
           "https://example.com" "https://example.org"
           (Some 800) (Some 600) (Some 800) (Some 600) (Some false)
           (Some false) "png" "png" None (Some 30000) None (Some 30000)
           empty_world).
  - vm_compute. discriminate.
  - reflexivity.
  - reflexivity.
Defined.
